(** * fusebill: a client for the Fusebill billing service

    Shallow embedding of the two revisions of the Go package [fusebill]
    (the current [fusebill.go] and the earlier revision of the same file)
    and the properties of its four operations: [WriteOff], [login],
    [SendRequest] and [GetInvoiceBalance].

    The package is a thin wrapper around [net/http], [encoding/json],
    [strconv] and [fmt].  The remote service and the parts of the Go
    library whose result is not determined by the package are collected in
    the class [GoRuntime]; the parts that decide a property ([strconv.Atoi],
    the layout of a marshalled struct, the way [encoding/json] fills a
    struct) are written out. *)

From Stdlib Require Import ZArith Bool List String Ascii Lia.
From Stdlib Require Import SpecFloat DecimalString DecimalPos.
Import ListNotations.
Open Scope string_scope.
Open Scope Z_scope.

Set Implicit Arguments.

(** ** Go values *)

(** A Go [error] is [nil] or carries a message. *)
Definition error := option string.

Definition errors_New (msg : string) : error := Some msg.

(** [float64]: IEEE 754 binary64, with its zeros, infinities and NaN. *)
Definition float64 := spec_float.

Definition float64_zero : float64 := S754_zero false.

(** The Go comparisons [x <= y] and [x < y] on [float64]. *)
Definition float64_le (x y : float64) : bool := SFleb x y.
Definition float64_lt (x y : float64) : bool := SFltb x y.

Definition IsInf (x : float64) : bool :=
  match x with S754_infinity _ => true | _ => false end.

Definition IsNaN (x : float64) : bool :=
  match x with S754_nan => true | _ => false end.

(** [s] occurs in [t]. *)
Definition Contains (t s : string) : Prop :=
  exists pre post, t = pre ++ s ++ post.

(** The double quote, for the JSON texts. *)
Definition dquote : string := String (ascii_of_nat 34) EmptyString.

(** [%d] of [fmt]: decimal digits, with a minus sign for negatives. *)
Definition Sprintf_d (n : Z) : string := NilZero.string_of_int (Z.to_int n).

(** ** strconv.Atoi *)

Module strconv.

Inductive NumError := ErrSyntax | ErrRange.

(** Size of [int]; the package is modelled on a 64-bit platform. *)
Definition IntSize : Z := 64.

Definition byte_of (c : ascii) : Z := Z.of_nat (nat_of_ascii c).

Definition is_digit (c : ascii) : bool :=
  (48 <=? byte_of c) && (byte_of c <=? 57).

(** The loop of [ParseUint] in base 10: a byte that is no digit is a
    syntax error; an overflow of [maxVal] stops the loop at once with
    [maxVal] and a range error, before the rest of the string is read. *)
Fixpoint ParseUint_loop (maxVal n : Z) (s : string) : Z * option NumError :=
  match s with
  | EmptyString => (n, None)
  | String c rest =>
      if negb (is_digit c) then (0, Some ErrSyntax)
      else
        let d := byte_of c - 48 in
        if n >=? (2 ^ 64 - 1) / 10 + 1 then (maxVal, Some ErrRange)
        else
          let n1 := n * 10 + d in
          if n1 >? maxVal then (maxVal, Some ErrRange)
          else ParseUint_loop maxVal n1 rest
  end.

Definition ParseUint (s : string) (bitSize : Z) : Z * option NumError :=
  match s with
  | EmptyString => (0, Some ErrSyntax)
  | _ => ParseUint_loop (2 ^ bitSize - 1) 0 s
  end.

Definition is_sign (c : ascii) : bool :=
  (byte_of c =? 43) || (byte_of c =? 45).

Definition is_minus (c : ascii) : bool := byte_of c =? 45.

(** [ParseInt(s, 10, bitSize)]. *)
Definition ParseInt (s : string) (bitSize : Z) : Z * option NumError :=
  match s with
  | EmptyString => (0, Some ErrSyntax)
  | String c rest =>
      let neg := is_minus c in
      let digits := if is_sign c then rest else s in
      match ParseUint digits bitSize with
      | (_, Some ErrSyntax) => (0, Some ErrSyntax)
      | (un, e) =>
          let cutoff := 2 ^ (bitSize - 1) in
          if negb neg && (un >=? cutoff) then (cutoff - 1, Some ErrRange)
          else if neg && (un >? cutoff) then (- cutoff, Some ErrRange)
          else ((if neg then - un else un), e)
      end
  end.

(** The fast path of [Atoi]: all bytes are digits. *)
Fixpoint Atoi_digits (n : Z) (s : string) : option Z :=
  match s with
  | EmptyString => Some n
  | String c rest =>
      if is_digit c then Atoi_digits (n * 10 + (byte_of c - 48)) rest
      else None
  end.

(** [Atoi]: a fast path for strings of fewer than 19 bytes, [ParseInt]
    for the others. *)
Definition Atoi (s : string) : Z * option NumError :=
  let sLen := Z.of_nat (String.length s) in
  if (0 <? sLen) && (sLen <? 19) then
    match s with
    | EmptyString => (0, Some ErrSyntax)
    | String c rest =>
        let digits := if is_sign c then rest else s in
        match digits with
        | EmptyString => (0, Some ErrSyntax)
        | _ =>
            match Atoi_digits 0 digits with
            | None => (0, Some ErrSyntax)
            | Some n => ((if is_minus c then - n else n), None)
            end
        end
    end
  else ParseInt s IntSize.

End strconv.

(** ** The structs of the package *)

Module Invoice.
Record t := mk { OutstandingBalance : float64 }.
End Invoice.

Module WriteOff.
Record t := mk { InvoiceId : Z; Amount : float64 }.
End WriteOff.

(** [Body] is an [io.Reader]: [None] is the nil reader. *)
Module RequestDetails.
Record t := mk { Method : string; Endpoint : string; Body : option string }.
End RequestDetails.

Module Response.
Record t := mk { Body : string; StatusCode : Z }.

(** The zero value [Response{}]: a nil body and status 0. *)
Definition zero : t := mk "" 0.
End Response.

(** [Credentials] of the current revision; the earlier revision has its own,
    without [Token]. *)
Module Credentials.
Record t := mk { Username : string; Password : string; Token : string }.
End Credentials.

Module InteractionMode.
Record t := mk { Token : string; ApiHost : string }.
End InteractionMode.

(** ** net/http and net/url *)

Module http.

Definition StatusOK : Z := 200.

(** [http.Client]: its cookie jar (an allocated [cookiejar.Jar], named by
    its allocation number) and its timeout in seconds. *)
Record Client := mkClient { Jar : option nat; Timeout : option Z }.

Definition Header := list (string * string).

Definition Header_Add (h : Header) (k v : string) : Header :=
  (h ++ [(k, v)])%list.

Definition Header_Set (h : Header) (k v : string) : Header :=
  (filter (fun kv => negb (String.eqb (fst kv) k)) h ++ [(k, v)])%list.

Record Request := mkRequest
  { Method : string; URL : string; Headers : Header; Body : string }.

(** A response body as [ioutil.ReadAll] sees it: the bytes it returns and
    the error it returns with them ([None] when the body was read whole). *)
Record ReadCloser := mkBody { data : string; read_error : error }.

Definition ReadAll (b : ReadCloser) : string * error := (data b, read_error b).

Record Response := mkResponse { StatusCode : Z; RespBody : ReadCloser }.

(** One request handed to the transport, and the client that sent it. *)
Record Call := mkCall { via : Client; request : Request }.

End http.

Module url.

(** [url.Values] with its entries in the order they were added. *)
Definition Values := list (string * string).

Definition Add (v : Values) (key value : string) : Values :=
  (v ++ [(key, value)])%list.

(** [Encode] sorts by key; equal keys keep their order. *)
Fixpoint insert_by_key (kv : string * string) (l : Values) : Values :=
  match l with
  | [] => [kv]
  | kv' :: rest =>
      if String.ltb (fst kv) (fst kv') then kv :: l
      else kv' :: insert_by_key kv rest
  end.

Definition sort_by_key (l : Values) : Values :=
  fold_left (fun acc kv => insert_by_key kv acc) l [].

End url.

(** ** encoding/json, as far as the package uses it *)

Module json.

(** A JSON text after the scanner accepted it.  Numbers keep their
    literal; the members of an object keep their order and duplicates. *)
#[local] Unset Elimination Schemes.
Inductive value :=
| Null
| Bool (b : bool)
| Number (lit : string)
| Str (s : string)
| Array (elems : list value)
| Object (members : list (string * value)).
#[local] Set Elimination Schemes.

Inductive Error :=
| SyntaxError
| UnmarshalTypeError (Value : string).

(** [saveError] keeps the earliest error. *)
Definition saveError (e : Error) (saved : option Error) : option Error :=
  match saved with
  | None => Some e
  | Some e0 => Some e0
  end.

End json.

(** ** The world outside the package *)

(** What the package gets from the network and from library functions whose
    results it only passes on. *)
Class GoRuntime := {
  (** [Client.Do]: the answer of the transport to a request, given the
      requests sent before it: an error message or a response. *)
  RoundTrip : list http.Call -> http.Client -> http.Request ->
              string + http.Response;
  (** The error of [http.NewRequest] for a method and a URL, if any. *)
  NewRequest_error : string -> string -> error;
  (** [url.QueryEscape]. *)
  QueryEscape : string -> string;
  (** [%.2f] of [fmt]. *)
  Sprintf_2f : float64 -> string;
  (** The JSON text of a finite [float64]. *)
  FormatFloat : float64 -> string;
  (** The scanner of [encoding/json]: [None] for a text that is not JSON. *)
  scan : string -> option json.value;
  (** [strconv.ParseFloat(lit, 64)]: [None] when it returns an error. *)
  ParseFloat : string -> option float64;
  (** What the decoder of [encoding/json] puts into a [float64] field for
      a number that [ParseFloat] rejects: [None] when it leaves the field
      as it was, as the classic decoder does; the value it stores
      otherwise, as the decoder of recent Go releases does with the
      infinity that [ParseFloat] returns beside its range error. *)
  stored_on_error : string -> option float64;
  (** Case folding of [encoding/json] for the names of struct fields. *)
  EqualFold : string -> string -> bool
}.

(** The requests sent so far, oldest first, and the number of cookie jars
    allocated so far. *)
Record World := mkWorld { sent : list http.Call; jars : nat }.

(** A call either returns or panics (a nil pointer is dereferenced). *)
Inductive outcome (A : Type) :=
| Returned (a : A)
| Panicked.
Arguments Panicked {A}.

(** Calls in sequence over a state [S]; a panic ends the sequence. *)
Definition M (S A : Type) : Type := S -> outcome A * S.

Definition ret {S A : Type} (a : A) : M S A := fun s => (Returned a, s).

Definition bind {S A B : Type} (m : M S A) (k : A -> M S B) : M S B :=
  fun s =>
    match m s with
    | (Returned a, s') => k a s'
    | (Panicked, s') => (Panicked, s')
    end.

Notation "x <- m ;; k" := (bind m (fun x => k))
  (at level 61, m at next level, right associativity).

Section Library.

Context {R : GoRuntime}.

(** [http.NewRequest]; an empty method means GET. *)
Definition http_NewRequest (method url : string) (body : option string)
  : string + http.Request :=
  match NewRequest_error method url with
  | Some e => inl e
  | None =>
      inr (http.mkRequest (if String.eqb method "" then "GET" else method)
             url []
             (match body with Some b => b | None => "" end))
  end.

(** [c.Do(req)]: the request goes out and the transport answers.  A nil
    client panics before anything is sent. *)
Definition http_Do (c : option http.Client) (req : http.Request)
  : M World (string + http.Response) :=
  fun w =>
    match c with
    | None => (Panicked, w)
    | Some c =>
        (Returned (RoundTrip (sent w) c req),
         mkWorld (sent w ++ [http.mkCall c req])%list (jars w))
    end.

Definition url_Encode (v : url.Values) : string :=
  String.concat "&"
    (map (fun kv => QueryEscape (fst kv) ++ "=" ++ QueryEscape (snd kv))
       (url.sort_by_key v)).

(** The request [c.PostForm(url, data)] builds. *)
Definition PostForm_request (u : string) (v : url.Values)
  : string + http.Request :=
  match http_NewRequest "POST" u (Some (url_Encode v)) with
  | inl e => inl e
  | inr req =>
      inr (http.mkRequest (http.Method req) (http.URL req)
             (http.Header_Set (http.Headers req) "Content-Type"
                "application/x-www-form-urlencoded")
             (http.Body req))
  end.

(** [c.PostForm(url, data)]: the request is built first, so a URL that
    does not parse is an error even for a nil client. *)
Definition http_PostForm (c : option http.Client) (u : string)
  (v : url.Values) : M World (string + http.Response) :=
  match PostForm_request u v with
  | inl e => ret (inl e)
  | inr req => http_Do c req
  end.

(** [cookiejar.New(nil)]: a fresh jar; it never fails. *)
Definition cookiejar_New : M World nat :=
  fun w => (Returned (jars w), mkWorld (sent w) (S (jars w))).

(** [json.Marshal] of a [WriteOff]: the fields in order under their tags;
    an infinite or NaN amount is an unsupported value and gives no bytes. *)
Definition json_Marshal (d : WriteOff.t) : string * error :=
  if IsInf (WriteOff.Amount d) || IsNaN (WriteOff.Amount d)
  then ("", Some "json: unsupported value")
  else ("{" ++ dquote ++ "invoiceId" ++ dquote ++ ":"
            ++ Sprintf_d (WriteOff.InvoiceId d)
            ++ "," ++ dquote ++ "amount" ++ dquote ++ ":"
            ++ FormatFloat (WriteOff.Amount d) ++ "}",
        None).

(** Does the key of an object member name the field of [Invoice]?  An
    exact match, else a match up to case. *)
Definition names_field (key : string) : bool :=
  String.eqb key "outstandingBalance" || EqualFold key "outstandingBalance".

(** A member value stored into the [float64] field: a number that parses
    is stored; [null] is skipped; anything else is a type error, saved,
    and decoding goes on.  For a number that does not parse the error is
    saved as well, and the field holds what that decoder stores, if it
    stores anything. *)
Definition store_float64 (v : json.value) (st : Invoice.t * option json.Error)
  : Invoice.t * option json.Error :=
  match v with
  | json.Null => st
  | json.Number lit =>
      match ParseFloat lit with
      | Some n => (Invoice.mk n, snd st)
      | None =>
          (match stored_on_error lit with
           | Some n => Invoice.mk n
           | None => fst st
           end,
           json.saveError (json.UnmarshalTypeError ("number " ++ lit)) (snd st))
      end
  | json.Bool _ => (fst st, json.saveError (json.UnmarshalTypeError "bool") (snd st))
  | json.Str _ => (fst st, json.saveError (json.UnmarshalTypeError "string") (snd st))
  | json.Array _ => (fst st, json.saveError (json.UnmarshalTypeError "array") (snd st))
  | json.Object _ => (fst st, json.saveError (json.UnmarshalTypeError "object") (snd st))
  end.

(** The members of an object, in order, decoded into an [Invoice]. *)
Fixpoint decode_members (ms : list (string * json.value))
  (st : Invoice.t * option json.Error) : Invoice.t * option json.Error :=
  match ms with
  | [] => st
  | (k, v) :: rest =>
      decode_members rest (if names_field k then store_float64 v st else st)
  end.

(** [json.Unmarshal(data, invoice)]: the struct after the call and the
    error returned.  A text that is not JSON leaves the struct as it was. *)
Definition json_Unmarshal (data : string) (invoice : Invoice.t)
  : Invoice.t * option json.Error :=
  match scan data with
  | None => (invoice, Some json.SyntaxError)
  | Some (json.Object ms) => decode_members ms (invoice, None)
  | Some json.Null => (invoice, None)
  | Some (json.Bool _) => (invoice, Some (json.UnmarshalTypeError "bool"))
  | Some (json.Number _) => (invoice, Some (json.UnmarshalTypeError "number"))
  | Some (json.Str _) => (invoice, Some (json.UnmarshalTypeError "string"))
  | Some (json.Array _) => (invoice, Some (json.UnmarshalTypeError "array"))
  end.

End Library.

(** ** The error messages of the package *)

Section Messages.

Context {R : GoRuntime}.

(** [fmt.Sprintf("Invoice %s: outstandingBalance is %.2f", id, balance)] *)
Definition errBalance (invoiceID : string) (balance : float64) : string :=
  "Invoice " ++ invoiceID ++ ": outstandingBalance is " ++ Sprintf_2f balance.

Definition errCookieJar : string := "cookie jar should be set".

Definition errLogin : string := "unable to login, check you login and password".

(** [fmt.Errorf("server returns %d; message %s", status, body)] *)
Definition errServer (status : Z) (body : string) : string :=
  "server returns " ++ Sprintf_d status ++ "; message " ++ body.

(** [fmt.Sprintf("Request failed with the status code: %d, content: %s", ...)] *)
Definition errRequest (status : Z) (content : string) : string :=
  "Request failed with the status code: " ++ Sprintf_d status
    ++ ", content: " ++ content.

End Messages.

(** ** The current revision, [fusebill.go] *)

Module Current.

(** [Client] is a pointer and may be nil; [cookieJar] likewise. *)
Record Fusebill := mkFusebill
  { BaseUrl : string;
    Credentials : Credentials.t;
    Client : option http.Client;
    cookieJar : option nat }.

Section Methods.

Context {R : GoRuntime}.

(** The form [login] posts: [username] and [password], in this order. *)
Definition login_data (f : Fusebill) : url.Values :=
  url.Add (url.Add [] "username" (Credentials.Username (Credentials f)))
    "password" (Credentials.Password (Credentials f)).

Definition login_url (f : Fusebill) : string := BaseUrl f ++ "/api/Login/".

Definition login (f : Fusebill) : M World error :=
  match cookieJar f with
  | None => ret (errors_New errCookieJar)
  | Some _ =>
      r <- http_PostForm (Client f) (login_url f) (login_data f) ;;
      match r with
      | inl err => ret (Some err)
      | inr resp =>
          if negb (http.StatusCode resp =? http.StatusOK)
          then ret (errors_New errLogin)
          else ret None
      end
  end.

(** The request [WriteOff] builds once [login] has succeeded. *)
Definition WriteOff_request (f : Fusebill) (invoiceID : string)
  (balance : float64) : string + http.Request :=
  let i := fst (strconv.Atoi invoiceID) in
  let data := WriteOff.mk i balance in
  let r := fst (json_Marshal data) in
  match http_NewRequest "POST" (BaseUrl f ++ "/api/invoices/writeoff") (Some r) with
  | inl err => inl err
  | inr request =>
      inr (http.mkRequest (http.Method request) (http.URL request)
             (http.Header_Set (http.Headers request) "Content-Type"
                "application/json")
             (http.Body request))
  end.

(** The mutex around [login] has no effect on a single caller. *)
Definition WriteOff (f : Fusebill) (invoiceID : string) (balance : float64)
  : M World error :=
  if float64_le balance float64_zero
  then ret (errors_New (errBalance invoiceID balance))
  else
    err <- login f ;;
    match err with
    | Some e => ret (Some e)
    | None =>
        match WriteOff_request f invoiceID balance with
        | inl e => ret (Some e)
        | inr request =>
            r <- http_Do (Client f) request ;;
            match r with
            | inl e => ret (Some e)
            | inr resp =>
                if negb (http.StatusCode resp =? http.StatusOK)
                then
                  let body := fst (http.ReadAll (http.RespBody resp)) in
                  ret (Some (errServer (http.StatusCode resp) body))
                else ret None
            end
        end
    end.

Definition SendRequest_request (f : Fusebill) (r : RequestDetails.t)
  : string + http.Request :=
  match http_NewRequest (RequestDetails.Method r)
          (BaseUrl f ++ RequestDetails.Endpoint r) (RequestDetails.Body r) with
  | inl err => inl err
  | inr request =>
      inr (http.mkRequest (http.Method request) (http.URL request)
             (http.Header_Add
                (http.Header_Add (http.Headers request) "Content-Type"
                   "application/json")
                "Authorization"
                ("Basic " ++ Credentials.Token (Credentials f)))
             (http.Body request))
  end.

Definition SendRequest (f : Fusebill) (r : RequestDetails.t)
  : M World (Response.t * error) :=
  match SendRequest_request f r with
  | inl err => ret (Response.zero, Some err)
  | inr request =>
      res <- http_Do (Client f) request ;;
      match res with
      | inl err => ret (Response.zero, Some err)
      | inr resp =>
          if negb (http.StatusCode resp =? http.StatusOK)
          then
            let content := fst (http.ReadAll (http.RespBody resp)) in
            ret (Response.zero,
                 errors_New (errRequest (http.StatusCode resp) content))
          else
            match http.ReadAll (http.RespBody resp) with
            | (_, Some err) => ret (Response.zero, Some err)
            | (b, None) => ret (Response.mk b (http.StatusCode resp), None)
            end
      end
  end.

Definition GetInvoiceBalance (f : Fusebill) (invoiceID : string)
  : M World (float64 * error) :=
  res <- SendRequest f (RequestDetails.mk "GET" ("/invoices/" ++ invoiceID) None) ;;
  match snd res with
  | Some err => ret (float64_zero, Some err)
  | None =>
      let invoice := Invoice.mk float64_zero in
      let invoice := fst (json_Unmarshal (Response.Body (fst res)) invoice) in
      ret (Invoice.OutstandingBalance invoice, None)
  end.

Definition NewClient (mode : string) (credentials : Credentials.t) : Fusebill :=
  let baseUrl :=
    if String.eqb mode "production"
    then "https://secure.fusebill.com/v1"
    else "https://stg-secure.fusebill.com/v1" in
  mkFusebill baseUrl credentials (Some (http.mkClient None (Some 5))) None.

(** The jar is allocated here and shared with the HTTP client. *)
Definition NewPrivateClient (mode : string) (credentials : Credentials.t)
  : M World Fusebill :=
  let baseUrl :=
    if String.eqb mode "production"
    then "https://secure.fusebill.com"
    else "https://stg-secure.fusebill.com" in
  let client :=
    mkFusebill baseUrl credentials (Some (http.mkClient None (Some 5))) None in
  jar <- cookiejar_New ;;
  let client :=
    mkFusebill (BaseUrl client) (Credentials client) (Client client) (Some jar) in
  let client :=
    mkFusebill (BaseUrl client) (Credentials client)
      (match Client client with
       | Some c => Some (http.mkClient (cookieJar client) (http.Timeout c))
       | None => None
       end)
      (cookieJar client) in
  ret client.

End Methods.

End Current.

(** ** The earlier revision *)

Module Legacy.

Module Credentials.
Record t := mk { Username : string; Password : string }.
End Credentials.

Record Fusebill := mkFusebill
  { BaseUrl : string;
    Mode : InteractionMode.t;
    Credentials : Credentials.t;
    Client : option http.Client;
    cookieJar : option nat }.

(** The receiver [f], the package variable [client] (nil until a login
    sets it) and the world. *)
Record State := mkState
  { self : Fusebill;
    client : option http.Client;
    world : World }.

Section Methods.

Context {R : GoRuntime}.

(** A call that only touches the world, run in a state. *)
Definition in_world {A : Type} (m : M World A) : M State A :=
  fun s =>
    let (a, w) := m (world s) in
    (a, mkState (self s) (client s) w).

Definition set_cookieJar (jar : nat) : M State unit :=
  fun s =>
    let f := self s in
    (Returned tt,
     mkState (mkFusebill (BaseUrl f) (Mode f) (Credentials f) (Client f) (Some jar))
       (client s) (world s)).

Definition set_client (c : http.Client) : M State unit :=
  fun s => (Returned tt, mkState (self s) (Some c) (world s)).

Definition get_self : M State Fusebill := fun s => (Returned (self s), s).

Definition get_client : M State (option http.Client) :=
  fun s => (Returned (client s), s).

Definition login_data (f : Fusebill) : url.Values :=
  url.Add (url.Add [] "username" (Credentials.Username (Credentials f)))
    "password" (Credentials.Password (Credentials f)).

Definition login_url (f : Fusebill) : string := BaseUrl f ++ "/api/Login/".

(** The jar and the package client are assigned before the credentials
    are posted. *)
Definition login : M State error :=
  f <- get_self ;;
  match cookieJar f with
  | Some _ => ret None
  | None =>
      jar <- in_world cookiejar_New ;;
      _ <- set_cookieJar jar ;;
      _ <- set_client (http.mkClient (Some jar) None) ;;
      c <- get_client ;;
      r <- in_world (http_PostForm c (login_url f) (login_data f)) ;;
      match r with
      | inl err => ret (Some err)
      | inr resp =>
          if negb (http.StatusCode resp =? http.StatusOK)
          then ret (errors_New errLogin)
          else ret None
      end
  end.

Definition WriteOff_request (f : Fusebill) (invoiceID : string)
  (balance : float64) : string + http.Request :=
  let i := fst (strconv.Atoi invoiceID) in
  let data := WriteOff.mk i balance in
  let r := fst (json_Marshal data) in
  match http_NewRequest "POST" (BaseUrl f ++ "/api/invoices/writeoff") (Some r) with
  | inl err => inl err
  | inr request =>
      inr (http.mkRequest (http.Method request) (http.URL request)
             (http.Header_Set (http.Headers request) "Content-Type"
                "application/json")
             (http.Body request))
  end.

(** The request is sent through the package variable [client]. *)
Definition WriteOff (invoiceID : string) (balance : float64) : M State error :=
  if float64_le balance float64_zero
  then ret (errors_New (errBalance invoiceID balance))
  else
    err <- login ;;
    match err with
    | Some e => ret (Some e)
    | None =>
        f <- get_self ;;
        match WriteOff_request f invoiceID balance with
        | inl e => ret (Some e)
        | inr request =>
            c <- get_client ;;
            r <- in_world (http_Do c request) ;;
            match r with
            | inl e => ret (Some e)
            | inr resp =>
                if negb (http.StatusCode resp =? http.StatusOK)
                then
                  let body := fst (http.ReadAll (http.RespBody resp)) in
                  ret (Some (errServer (http.StatusCode resp) body))
                else ret None
            end
        end
    end.

Definition SendRequest_request (f : Fusebill) (r : RequestDetails.t)
  : string + http.Request :=
  match http_NewRequest (RequestDetails.Method r)
          (InteractionMode.ApiHost (Mode f) ++ RequestDetails.Endpoint r)
          (RequestDetails.Body r) with
  | inl err => inl err
  | inr request =>
      inr (http.mkRequest (http.Method request) (http.URL request)
             (http.Header_Add
                (http.Header_Add (http.Headers request) "Content-Type"
                   "application/json")
                "Authorization"
                ("Basic " ++ InteractionMode.Token (Mode f)))
             (http.Body request))
  end.

(** Sent through [f.Client], not through the package variable. *)
Definition SendRequest (r : RequestDetails.t) : M State (Response.t * error) :=
  f <- get_self ;;
  match SendRequest_request f r with
  | inl err => ret (Response.zero, Some err)
  | inr request =>
      res <- in_world (http_Do (Client f) request) ;;
      match res with
      | inl err => ret (Response.zero, Some err)
      | inr resp =>
          if negb (http.StatusCode resp =? http.StatusOK)
          then
            let content := fst (http.ReadAll (http.RespBody resp)) in
            ret (Response.zero,
                 errors_New (errRequest (http.StatusCode resp) content))
          else
            match http.ReadAll (http.RespBody resp) with
            | (_, Some err) => ret (Response.zero, Some err)
            | (b, None) => ret (Response.mk b (http.StatusCode resp), None)
            end
      end
  end.

Definition GetInvoiceBalance (invoiceID : string) : M State (float64 * error) :=
  res <- SendRequest (RequestDetails.mk "GET" ("/invoices/" ++ invoiceID) None) ;;
  match snd res with
  | Some err => ret (float64_zero, Some err)
  | None =>
      let invoice := Invoice.mk float64_zero in
      let invoice := fst (json_Unmarshal (Response.Body (fst res)) invoice) in
      ret (Invoice.OutstandingBalance invoice, None)
  end.

Definition NewClient (baseUrl : string) (mode : InteractionMode.t)
  (credentials : Credentials.t) : Fusebill :=
  mkFusebill baseUrl mode credentials (Some (http.mkClient None None)) None.

End Methods.

End Legacy.

(** ** Vocabulary of the properties *)

(** The world once [c] has sent [req]. *)
Definition with_call (w : World) (c : http.Client) (req : http.Request) : World :=
  mkWorld (sent w ++ [http.mkCall c req])%list (jars w).

(** The state of the earlier revision once [login] has created its jar: the
    receiver holds the jar and the package client uses it. *)
Definition Legacy_jar_created (s : Legacy.State) : Legacy.State :=
  let f := Legacy.self s in
  let jar := jars (Legacy.world s) in
  Legacy.mkState
    (Legacy.mkFusebill (Legacy.BaseUrl f) (Legacy.Mode f) (Legacy.Credentials f)
       (Legacy.Client f) (Some jar))
    (Some (http.mkClient (Some jar) None))
    (mkWorld (sent (Legacy.world s)) (S (jars (Legacy.world s)))).

(** The client [login] of the earlier revision creates in state [s]. *)
Definition Legacy_login_client (s : Legacy.State) : http.Client :=
  http.mkClient (Some (jars (Legacy.world s))) None.

(** The state of the earlier revision once [login] has created its jar and
    posted the request [req]. *)
Definition Legacy_after_login (s : Legacy.State) (req : http.Request)
  : Legacy.State :=
  Legacy.mkState (Legacy.self (Legacy_jar_created s))
    (Legacy.client (Legacy_jar_created s))
    (with_call (Legacy.world (Legacy_jar_created s)) (Legacy_login_client s) req).

(** The calls of the earlier revision, to run them in sequence. *)
Module LegacyCall.
Inductive t :=
| login
| WriteOff (invoiceID : string) (balance : float64)
| SendRequest (r : RequestDetails.t)
| GetInvoiceBalance (invoiceID : string).
End LegacyCall.

Section Runs.

Context {R : GoRuntime}.

(** The state a call leaves, whatever it returns. *)
Definition Legacy_step (s : Legacy.State) (c : LegacyCall.t) : Legacy.State :=
  match c with
  | LegacyCall.login => snd (Legacy.login s)
  | LegacyCall.WriteOff invoiceID balance => snd (Legacy.WriteOff invoiceID balance s)
  | LegacyCall.SendRequest r => snd (Legacy.SendRequest r s)
  | LegacyCall.GetInvoiceBalance invoiceID => snd (Legacy.GetInvoiceBalance invoiceID s)
  end.

Definition Legacy_run (cs : list LegacyCall.t) (s : Legacy.State) : Legacy.State :=
  fold_left Legacy_step cs s.

Definition is_number (v : json.value) : bool :=
  match v with
  | json.Number _ => true
  | _ => false
  end.

(** The value the decoder stores for a member value, if it stores one:
    only a number is stored, the one it parses to or, when it does not
    parse, the one the decoder stores beside the error. *)
Definition stored_value (v : json.value) : option float64 :=
  match v with
  | json.Number lit =>
      match ParseFloat lit with
      | Some x => Some x
      | None => stored_on_error lit
      end
  | _ => None
  end.

(** Does a member of a JSON object store a balance into [Invoice]? *)
Definition stores_balance (kv : string * json.value) : bool :=
  names_field (fst kv) &&
  match stored_value (snd kv) with
  | Some _ => true
  | None => false
  end.

(** Does a response body hold a balance: is it a JSON object with a
    member that stores one? *)
Definition holds_balance (body : string) : bool :=
  match scan body with
  | Some (json.Object ms) => existsb stores_balance ms
  | _ => false
  end.

End Runs.

(** ** Scenarios

    A runtime to run the package against: a server that answers the login
    endpoint, the write-off endpoint and every other URL with chosen
    statuses, and library functions defined on the texts and amounts the
    scenarios use. *)

Module Scenario.

Definition ends_with (suffix s : string) : bool :=
  let n := String.length s in
  let k := String.length suffix in
  (k <=? n)%nat && String.eqb (substring (n - k) k s) suffix.

(** 42.5 and 1 as binary64 values. *)
Definition f42_5 : float64 := S754_finite false 5981343255101440 (-47).
Definition f1 : float64 := S754_finite false 4503599627370496 (-52).

Definition key : string := "outstandingBalance".

(** [{"outstandingBalance": 42.5}] *)
Definition body_balance : string :=
  "{" ++ dquote ++ key ++ dquote ++ ": 42.5}".

(** [{"outstandingBalance": 42.5, "outstandingBalance": "x"}] *)
Definition body_twice : string :=
  "{" ++ dquote ++ key ++ dquote ++ ": 42.5, "
      ++ dquote ++ key ++ dquote ++ ": " ++ dquote ++ "x" ++ dquote ++ "}".

(** [{"balance": 42.5}]: no member names the field. *)
Definition body_other : string :=
  "{" ++ dquote ++ "balance" ++ dquote ++ ": 42.5}".

Definition scan_texts (s : string) : option json.value :=
  if String.eqb s body_balance
  then Some (json.Object [(key, json.Number "42.5")])
  else if String.eqb s body_twice
  then Some (json.Object [(key, json.Number "42.5"); (key, json.Str "x")])
  else if String.eqb s body_other
  then Some (json.Object [("balance", json.Number "42.5")])
  else None.

Definition server (login_status writeoff_status api_status : Z)
  (api_body : string) : GoRuntime :=
  {| RoundTrip := fun _ _ req =>
       if ends_with "/api/Login/" (http.URL req)
       then inr (http.mkResponse login_status (http.mkBody "" None))
       else if ends_with "/api/invoices/writeoff" (http.URL req)
       then inr (http.mkResponse writeoff_status (http.mkBody "" None))
       else inr (http.mkResponse api_status (http.mkBody api_body None));
     NewRequest_error := fun _ _ => None;
     QueryEscape := fun s => s;
     Sprintf_2f := fun x =>
       match x with
       | S754_zero false => "0.00"
       | S754_zero true => "-0.00"
       | _ => "1.00"
       end;
     FormatFloat := fun _ => "1";
     scan := scan_texts;
     ParseFloat := fun lit => if String.eqb lit "42.5" then Some f42_5 else None;
     stored_on_error := fun _ => None;
     EqualFold := String.eqb |}.

Definition empty : World := mkWorld [] 0.

Definition credentials : Credentials.t := Credentials.mk "user" "secret" "token".

(** A client of each constructor of the current revision. *)
Definition public_client : Current.Fusebill :=
  Current.NewClient "production" credentials.

Definition private_client : Current.Fusebill :=
  Current.mkFusebill "https://secure.fusebill.com" credentials
    (Some (http.mkClient (Some 0%nat) (Some 5))) (Some 0%nat).

Definition after_private_client : World := mkWorld [] 1.

(** A client of the earlier revision before its first call. *)
Definition legacy_client : Legacy.Fusebill :=
  Legacy.NewClient "https://secure.fusebill.com"
    (InteractionMode.mk "token" "https://secure.fusebill.com/v1")
    (Legacy.Credentials.mk "user" "secret").

Definition legacy_start : Legacy.State := Legacy.mkState legacy_client None empty.

(** A service that accepts the login and one that refuses it. *)
Definition accepting : GoRuntime := server 200 200 200 body_balance.
Definition refusing : GoRuntime := server 401 200 200 body_balance.

(** Services that answer an invoice request with a balance given twice,
    with text that is not JSON, and with status 404. *)
Definition twice : GoRuntime := server 200 200 200 body_twice.
Definition garbled : GoRuntime := server 200 200 200 "<html>".
Definition missing : GoRuntime := server 200 200 404 "not found".

(** The HTTP client of [public_client] and its request for invoice 12. *)
Definition public_http : http.Client := http.mkClient None (Some 5).

Definition invoice_request : http.Request :=
  http.mkRequest "GET" "https://secure.fusebill.com/v1/invoices/12"
    [("Content-Type", "application/json"); ("Authorization", "Basic token")]
    "".

Definition invoice_details : RequestDetails.t :=
  RequestDetails.mk "GET" "/invoices/12" None.

(** The HTTP client of [private_client] and the requests it sends. *)
Definition private_http : http.Client := http.mkClient (Some 0%nat) (Some 5).

Definition login_request : http.Request :=
  http.mkRequest "POST" "https://secure.fusebill.com/api/Login/"
    [("Content-Type", "application/x-www-form-urlencoded")]
    "password=secret&username=user".

Definition writeoff_request (invoiceId : string) : http.Request :=
  http.mkRequest "POST" "https://secure.fusebill.com/api/invoices/writeoff"
    [("Content-Type", "application/json")]
    ("{" ++ dquote ++ "invoiceId" ++ dquote ++ ":" ++ invoiceId ++ ","
         ++ dquote ++ "amount" ++ dquote ++ ":1}").

End Scenario.

(** ** Vocabulary of the further properties *)

(** The state of the earlier revision is wired: the receiver has an HTTP
    client, and the package client is set once the receiver has a jar. *)
Definition Legacy_wired (s : Legacy.State) : bool :=
  match Legacy.Client (Legacy.self s) with
  | None => false
  | Some _ =>
      match Legacy.cookieJar (Legacy.self s), Legacy.client s with
      | Some _, None => false
      | _, _ => true
      end
  end.

Definition panicked {A : Type} (o : outcome A) : bool :=
  match o with
  | Panicked => true
  | Returned _ => false
  end.

Section Panics.

Context {R : GoRuntime}.

(** Does a call of the earlier revision panic in state [s]: does it
    dereference a nil HTTP client? *)
Definition Legacy_panics (c : LegacyCall.t) (s : Legacy.State) : bool :=
  match c with
  | LegacyCall.login => panicked (fst (Legacy.login s))
  | LegacyCall.WriteOff invoiceID balance =>
      panicked (fst (Legacy.WriteOff invoiceID balance s))
  | LegacyCall.SendRequest r => panicked (fst (Legacy.SendRequest r s))
  | LegacyCall.GetInvoiceBalance invoiceID =>
      panicked (fst (Legacy.GetInvoiceBalance invoiceID s))
  end.

End Panics.

(** Further scenarios: a service that cannot be reached, one that refuses
    the write-off, and one whose invoice has more members than the
    balance. *)
Module Cases.

(** [{"id": 12, "outstandingBalance": 42.5, "status": "Due"}] *)
Definition body_invoice : string :=
  "{" ++ dquote ++ "id" ++ dquote ++ ": 12, "
      ++ dquote ++ Scenario.key ++ dquote ++ ": 42.5, "
      ++ dquote ++ "status" ++ dquote ++ ": " ++ dquote ++ "Due" ++ dquote ++ "}".

Definition scan_invoice (s : string) : option json.value :=
  if String.eqb s body_invoice
  then Some (json.Object [("id", json.Number "12");
                          (Scenario.key, json.Number "42.5");
                          ("status", json.Str "Due")])
  else None.

(** The runtime of the scenarios with another transport and scanner. *)
Definition runtime
  (transport : list http.Call -> http.Client -> http.Request ->
               string + http.Response)
  (scanner : string -> option json.value) : GoRuntime :=
  {| RoundTrip := transport;
     NewRequest_error := fun _ _ => None;
     QueryEscape := fun s => s;
     Sprintf_2f := fun _ => "1.00";
     FormatFloat := fun _ => "1";
     scan := scanner;
     ParseFloat := fun lit =>
       if String.eqb lit "42.5" then Some Scenario.f42_5 else None;
     stored_on_error := fun _ => None;
     EqualFold := String.eqb |}.

Definition unreachable : GoRuntime :=
  runtime (fun _ _ _ => inl "connection refused") Scenario.scan_texts.

(** Login is accepted, the write-off is answered 422. *)
Definition rejecting : GoRuntime :=
  runtime
    (fun _ _ req =>
       if Scenario.ends_with "/api/Login/" (http.URL req)
       then inr (http.mkResponse 200 (http.mkBody "" None))
       else inr (http.mkResponse 422 (http.mkBody "already written off" None)))
    Scenario.scan_texts.

Definition detailed : GoRuntime :=
  runtime
    (fun _ _ _ => inr (http.mkResponse 200 (http.mkBody body_invoice None)))
    scan_invoice.

(** No URL can be parsed. *)
Definition malformed : GoRuntime :=
  {| RoundTrip := fun _ _ _ => inl "connection refused";
     NewRequest_error := fun _ _ => Some "invalid URL";
     QueryEscape := fun s => s;
     Sprintf_2f := fun _ => "1.00";
     FormatFloat := fun _ => "1";
     scan := Scenario.scan_texts;
     ParseFloat := fun _ => None;
     stored_on_error := fun _ => None;
     EqualFold := String.eqb |}.

Definition after_login : World :=
  with_call Scenario.after_private_client Scenario.private_http
    Scenario.login_request.

(** The service answers 200 and the connection breaks inside the body. *)
Definition truncated : GoRuntime :=
  runtime
    (fun _ _ _ =>
       inr (http.mkResponse 200 (http.mkBody "{" (Some "unexpected EOF"))))
    Scenario.scan_texts.

(** [{"outstandingBalance": 42.5, "outstandingBalance": 1e999}] *)
Definition body_overflow : string :=
  "{" ++ dquote ++ Scenario.key ++ dquote ++ ": 42.5, "
      ++ dquote ++ Scenario.key ++ dquote ++ ": 1e999}".

(** [{"outstandingBalance": "42.5"}]: the field holds a string. *)
Definition body_string : string :=
  "{" ++ dquote ++ Scenario.key ++ dquote ++ ": "
      ++ dquote ++ "42.5" ++ dquote ++ "}".

(** [{"outstandingBalance": 1e999}] *)
Definition body_out_of_range : string :=
  "{" ++ dquote ++ Scenario.key ++ dquote ++ ": 1e999}".

Definition scan_more (s : string) : option json.value :=
  if String.eqb s body_overflow
  then Some (json.Object [(Scenario.key, json.Number "42.5");
                          (Scenario.key, json.Number "1e999")])
  else if String.eqb s body_out_of_range
  then Some (json.Object [(Scenario.key, json.Number "1e999")])
  else if String.eqb s body_string
  then Some (json.Object [(Scenario.key, json.Str "42.5")])
  else None.

Definition infinity : float64 := S754_infinity false.

(** A decoder that stores the infinity of a number out of range, with a
    service that answers [body]. *)
Definition storing (body : string) : GoRuntime :=
  {| RoundTrip := fun _ _ _ =>
       inr (http.mkResponse 200 (http.mkBody body None));
     NewRequest_error := fun _ _ => None;
     QueryEscape := fun s => s;
     Sprintf_2f := fun _ => "1.00";
     FormatFloat := fun _ => "1";
     scan := scan_more;
     ParseFloat := fun lit =>
       if String.eqb lit "42.5" then Some Scenario.f42_5 else None;
     stored_on_error := fun lit =>
       if String.eqb lit "1e999" then Some infinity else None;
     EqualFold := String.eqb |}.

(** The invoice has a number out of range after the balance. *)
Definition overflowing : GoRuntime := storing body_overflow.

(** The classic decoder with the balance out of range. *)
Definition out_of_range : GoRuntime :=
  runtime
    (fun _ _ _ => inr (http.mkResponse 200 (http.mkBody body_out_of_range None)))
    scan_more.

(** The invoice holds its balance as a string. *)
Definition quoted : GoRuntime :=
  runtime
    (fun _ _ _ => inr (http.mkResponse 200 (http.mkBody body_string None)))
    scan_more.

End Cases.

(** * Properties *)

Unset Implicit Arguments.

(** ** Amounts *)

(** A positive amount passes the test [balance <= 0] of [WriteOff]. *)
Lemma positive_not_le_zero (x : float64) :
  float64_lt float64_zero x = true -> float64_le x float64_zero = false.
Proof.
  destruct x as [s | s | | s m e]; try destruct s; cbn; congruence.
Qed.

(** NaN is not positive, and it passes the test as well. *)
Lemma NaN_not_le_zero : float64_le S754_nan float64_zero = false.
Proof. reflexivity. Qed.

(** ** Occurrences in a message *)

Lemma Contains_middle (a s b : string) : Contains (a ++ s ++ b) s.
Proof. exists a, b. reflexivity. Qed.

Lemma append_empty_r (a : string) : a ++ "" = a.
Proof. induction a as [| c a IH]; simpl; [reflexivity | now rewrite IH]. Qed.

Lemma append_assoc (a b c : string) : (a ++ b) ++ c = a ++ b ++ c.
Proof. induction a as [| x a IH]; simpl; [reflexivity | now rewrite IH]. Qed.

Lemma Contains_end (a s : string) : Contains (a ++ s) s.
Proof. exists a, "". now rewrite append_empty_r. Qed.

(** ** The steps of a call *)

#[local] Ltac steps :=
  unfold bind, ret, errors_New, Legacy.in_world, Legacy.get_self,
    Legacy.get_client, Legacy.set_client, Legacy.set_cookieJar,
    cookiejar_New, http_PostForm, http_Do;
  cbn [fst snd sent jars Legacy.self Legacy.client Legacy.world
       Legacy.cookieJar Legacy.BaseUrl Legacy.Mode Legacy.Credentials
       Legacy.Client].

(** ** WriteOff *)

Section WriteOffProperties.

Context {R : GoRuntime}.

Lemma status_not_OK (resp : http.Response) :
  http.StatusCode resp <> http.StatusOK ->
  negb (http.StatusCode resp =? http.StatusOK) = true.
Proof. intros H. apply Z.eqb_neq in H. now rewrite H. Qed.

Lemma status_OK (resp : http.Response) :
  http.StatusCode resp = http.StatusOK ->
  negb (http.StatusCode resp =? http.StatusOK) = false.
Proof. intros H. rewrite H. reflexivity. Qed.

(** [login] of the current revision when the credentials are posted and
    the transport answers. *)
Lemma Current_login_answered (f : Current.Fusebill) (w : World)
  (j : nat) (c : http.Client) (req : http.Request) (resp : http.Response) :
  Current.cookieJar f = Some j ->
  Current.Client f = Some c ->
  PostForm_request (Current.login_url f) (Current.login_data f) = inr req ->
  RoundTrip (sent w) c req = inr resp ->
  Current.login f w =
    (Returned (if negb (http.StatusCode resp =? http.StatusOK)
               then Some errLogin else None),
     with_call w c req).
Proof.
  intros Hjar Hc Hreq Hresp. unfold Current.login. rewrite Hjar. steps.
  rewrite Hreq, Hc, Hresp.
  destruct (negb (http.StatusCode resp =? http.StatusOK)); reflexivity.
Qed.

(** [login] of the earlier revision when no jar exists yet, the
    credentials are posted and the transport answers. *)
Lemma Legacy_login_answered (s : Legacy.State)
  (req : http.Request) (resp : http.Response) :
  Legacy.cookieJar (Legacy.self s) = None ->
  PostForm_request (Legacy.login_url (Legacy.self s))
    (Legacy.login_data (Legacy.self s)) = inr req ->
  RoundTrip (sent (Legacy.world s)) (Legacy_login_client s) req = inr resp ->
  Legacy.login s =
    (Returned (if negb (http.StatusCode resp =? http.StatusOK)
               then Some errLogin else None),
     Legacy_after_login s req).
Proof.
  intros Hjar Hreq Hresp. unfold Legacy.login. steps. rewrite Hjar. steps.
  unfold Legacy.login_url, Legacy.login_data in *. steps. rewrite Hreq.
  unfold Legacy_login_client in Hresp. steps. rewrite Hresp.
  destruct (negb (http.StatusCode resp =? http.StatusOK)); reflexivity.
Qed.

(** C1.  An amount that is zero or negative is refused at once, in both
    revisions: [WriteOff] returns the validation error, and neither the
    world (no request is sent) nor the client changes. *)
Theorem WriteOff_nonpositive_amount
  (f : Current.Fusebill) (w : World) (s : Legacy.State)
  (invoiceID : string) (balance : float64) :
  float64_le balance float64_zero = true ->
  Current.WriteOff f invoiceID balance w
    = (Returned (Some (errBalance invoiceID balance)), w)
  /\ Legacy.WriteOff invoiceID balance s
    = (Returned (Some (errBalance invoiceID balance)), s).
Proof.
  intros Hle. unfold Current.WriteOff, Legacy.WriteOff. rewrite Hle.
  split; reflexivity.
Qed.

(** C4.  For a positive amount, when the login request is answered with a
    status other than 200, [WriteOff] returns the authentication error and
    the login request is the only request sent: the write-off is not
    posted.  In the earlier revision the login request goes out when the
    client has no jar yet; in the current one, when it has one. *)
Theorem WriteOff_login_refused (invoiceID : string) (balance : float64) :
  float64_lt float64_zero balance = true ->
  (forall (f : Current.Fusebill) (w : World) (j : nat) (c : http.Client)
          (req : http.Request) (resp : http.Response),
      Current.cookieJar f = Some j ->
      Current.Client f = Some c ->
      PostForm_request (Current.login_url f) (Current.login_data f) = inr req ->
      RoundTrip (sent w) c req = inr resp ->
      http.StatusCode resp <> http.StatusOK ->
      Current.WriteOff f invoiceID balance w
        = (Returned (Some errLogin), with_call w c req))
  /\
  (forall (s : Legacy.State) (req : http.Request) (resp : http.Response),
      Legacy.cookieJar (Legacy.self s) = None ->
      PostForm_request (Legacy.login_url (Legacy.self s))
        (Legacy.login_data (Legacy.self s)) = inr req ->
      RoundTrip (sent (Legacy.world s)) (Legacy_login_client s) req = inr resp ->
      http.StatusCode resp <> http.StatusOK ->
      Legacy.WriteOff invoiceID balance s
        = (Returned (Some errLogin), Legacy_after_login s req)).
Proof.
  intros Hpos. apply positive_not_le_zero in Hpos. split.
  - intros f w j c req resp Hjar Hc Hreq Hresp Hstatus.
    unfold Current.WriteOff. rewrite Hpos. unfold bind at 1.
    rewrite (Current_login_answered f w j c req resp Hjar Hc Hreq Hresp).
    rewrite (status_not_OK resp Hstatus). reflexivity.
  - intros s req resp Hjar Hreq Hresp Hstatus.
    unfold Legacy.WriteOff. rewrite Hpos. unfold bind at 1.
    rewrite (Legacy_login_answered s req resp Hjar Hreq Hresp).
    rewrite (status_not_OK resp Hstatus). reflexivity.
Qed.

(** C7.  For a positive amount, when the login request is answered with
    200 and the write-off request that follows it is answered with 200,
    [WriteOff] returns a nil error, in both revisions. *)
Theorem WriteOff_succeeds (invoiceID : string) (balance : float64) :
  float64_lt float64_zero balance = true ->
  (forall (f : Current.Fusebill) (w : World) (j : nat) (c : http.Client)
          (lreq wreq : http.Request) (lresp wresp : http.Response),
      Current.cookieJar f = Some j ->
      Current.Client f = Some c ->
      PostForm_request (Current.login_url f) (Current.login_data f) = inr lreq ->
      RoundTrip (sent w) c lreq = inr lresp ->
      http.StatusCode lresp = http.StatusOK ->
      Current.WriteOff_request f invoiceID balance = inr wreq ->
      RoundTrip (sent (with_call w c lreq)) c wreq = inr wresp ->
      http.StatusCode wresp = http.StatusOK ->
      Current.WriteOff f invoiceID balance w
        = (Returned None, with_call (with_call w c lreq) c wreq))
  /\
  (forall (s : Legacy.State) (lreq wreq : http.Request)
          (lresp wresp : http.Response),
      Legacy.cookieJar (Legacy.self s) = None ->
      PostForm_request (Legacy.login_url (Legacy.self s))
        (Legacy.login_data (Legacy.self s)) = inr lreq ->
      RoundTrip (sent (Legacy.world s)) (Legacy_login_client s) lreq = inr lresp ->
      http.StatusCode lresp = http.StatusOK ->
      Legacy.WriteOff_request (Legacy.self s) invoiceID balance = inr wreq ->
      RoundTrip (sent (Legacy.world (Legacy_after_login s lreq)))
        (Legacy_login_client s) wreq = inr wresp ->
      http.StatusCode wresp = http.StatusOK ->
      Legacy.WriteOff invoiceID balance s
        = (Returned None,
           Legacy.mkState (Legacy.self (Legacy_after_login s lreq))
             (Legacy.client (Legacy_after_login s lreq))
             (with_call (Legacy.world (Legacy_after_login s lreq))
                (Legacy_login_client s) wreq))).
Proof.
  intros Hpos. apply positive_not_le_zero in Hpos. split.
  - intros f w j c lreq wreq lresp wresp Hjar Hc Hlreq Hlresp Hl Hwreq Hwresp Hw.
    unfold Current.WriteOff. rewrite Hpos. unfold bind at 1.
    rewrite (Current_login_answered f w j c lreq lresp Hjar Hc Hlreq Hlresp).
    rewrite (status_OK _ Hl), Hwreq. steps. rewrite Hc.
    rewrite Hwresp, (status_OK _ Hw). reflexivity.
  - intros s lreq wreq lresp wresp Hjar Hlreq Hlresp Hl Hwreq Hwresp Hw.
    unfold Legacy.WriteOff. rewrite Hpos. unfold bind at 1.
    rewrite (Legacy_login_answered s lreq lresp Hjar Hlreq Hlresp).
    rewrite (status_OK _ Hl). steps.
    change (Legacy.self (Legacy_after_login s lreq))
      with (Legacy.self (Legacy_jar_created s)).
    assert (Hsame : Legacy.WriteOff_request (Legacy.self (Legacy_jar_created s))
                      invoiceID balance
                    = Legacy.WriteOff_request (Legacy.self s) invoiceID balance)
      by reflexivity.
    rewrite Hsame, Hwreq. steps.
    change (Legacy.client (Legacy_after_login s lreq))
      with (Some (Legacy_login_client s)).
    cbv beta iota. rewrite Hwresp, (status_OK _ Hw). reflexivity.
Qed.

End WriteOffProperties.

Lemma WriteOff_nonpositive_amount_witness :
  float64_le float64_zero float64_zero = true
  /\ Current.WriteOff (R := Scenario.accepting) Scenario.private_client "12"
       float64_zero Scenario.after_private_client
     = (Returned (Some "Invoice 12: outstandingBalance is 0.00"),
        Scenario.after_private_client)
  /\ Legacy.WriteOff (R := Scenario.accepting) "12" float64_zero
       Scenario.legacy_start
     = (Returned (Some "Invoice 12: outstandingBalance is 0.00"),
        Scenario.legacy_start).
Proof.
  split; [reflexivity |].
  apply (WriteOff_nonpositive_amount (R := Scenario.accepting)
           Scenario.private_client Scenario.after_private_client
           Scenario.legacy_start "12" float64_zero).
  reflexivity.
Defined.

Lemma WriteOff_login_refused_witness :
  float64_lt float64_zero Scenario.f1 = true
  /\ Current.WriteOff (R := Scenario.refusing) Scenario.private_client "12"
       Scenario.f1 Scenario.after_private_client
     = (Returned (Some errLogin),
        with_call Scenario.after_private_client Scenario.private_http
          Scenario.login_request)
  /\ Legacy.WriteOff (R := Scenario.refusing) "12" Scenario.f1 Scenario.legacy_start
     = (Returned (Some errLogin),
        Legacy_after_login Scenario.legacy_start Scenario.login_request).
Proof.
  split; [reflexivity |].
  destruct (WriteOff_login_refused (R := Scenario.refusing) "12" Scenario.f1 eq_refl)
    as [HCurrent HLegacy].
  split.
  - apply (HCurrent Scenario.private_client Scenario.after_private_client 0%nat
             Scenario.private_http Scenario.login_request
             (http.mkResponse 401 (http.mkBody "" None)));
      try reflexivity.
    vm_compute. discriminate.
  - apply (HLegacy Scenario.legacy_start Scenario.login_request
             (http.mkResponse 401 (http.mkBody "" None)));
      try reflexivity.
    vm_compute. discriminate.
Defined.

Lemma WriteOff_succeeds_witness :
  float64_lt float64_zero Scenario.f1 = true
  /\ Current.WriteOff (R := Scenario.accepting) Scenario.private_client "12"
       Scenario.f1 Scenario.after_private_client
     = (Returned None,
        with_call
          (with_call Scenario.after_private_client Scenario.private_http
             Scenario.login_request)
          Scenario.private_http (Scenario.writeoff_request "12"))
  /\ fst (Legacy.WriteOff (R := Scenario.accepting) "12" Scenario.f1
            Scenario.legacy_start)
     = Returned None.
Proof.
  split; [reflexivity |].
  destruct (WriteOff_succeeds (R := Scenario.accepting) "12" Scenario.f1 eq_refl)
    as [HCurrent HLegacy].
  split.
  - apply (HCurrent Scenario.private_client Scenario.after_private_client 0%nat
             Scenario.private_http Scenario.login_request
             (Scenario.writeoff_request "12")
             (http.mkResponse 200 (http.mkBody "" None))
             (http.mkResponse 200 (http.mkBody "" None)));
      reflexivity.
  - rewrite (HLegacy Scenario.legacy_start Scenario.login_request
               (Scenario.writeoff_request "12")
               (http.mkResponse 200 (http.mkBody "" None))
               (http.mkResponse 200 (http.mkBody "" None)));
      reflexivity.
Defined.

(** ** login and the cookie jar *)

Section LoginProperties.

Context {R : GoRuntime}.

(** The request [PostForm] builds, when it builds one. *)
Lemma PostForm_request_inr (u : string) (v : url.Values) (req : http.Request) :
  PostForm_request u v = inr req ->
  req = http.mkRequest "POST" u
          [("Content-Type", "application/x-www-form-urlencoded")]
          (url_Encode v).
Proof.
  unfold PostForm_request, http_NewRequest.
  destruct (NewRequest_error "POST" u); [discriminate |].
  cbn. intros H. now inversion H.
Qed.

(** The credentials as [login] encodes them: sorted by key. *)
Lemma login_form (user password : string) :
  url_Encode (url.Add (url.Add [] "username" user) "password" password)
  = QueryEscape "password" ++ "=" ++ QueryEscape password ++ "&"
      ++ QueryEscape "username" ++ "=" ++ QueryEscape user.
Proof. unfold url_Encode. cbn. now rewrite !append_assoc. Qed.

Lemma Current_login_without_jar (f : Current.Fusebill) (w : World) :
  Current.cookieJar f = None ->
  Current.login f w = (Returned (Some errCookieJar), w).
Proof. intros H. unfold Current.login. now rewrite H. Qed.

Lemma Legacy_login_with_jar (s : Legacy.State) (j : nat) :
  Legacy.cookieJar (Legacy.self s) = Some j ->
  Legacy.login s = (Returned None, s).
Proof. intros H. unfold Legacy.login. steps. now rewrite H. Qed.

(** C2, as the code has it.  In the earlier revision [login] returns
    success at once, posting nothing, when the client has a jar, and
    otherwise posts the form-encoded credentials to [/api/Login/].  In
    the current revision [login] never returns early: without a jar it
    fails with "cookie jar should be set" and posts nothing, and with a
    jar it posts the credentials on every call.  In both, a status other
    than 200 gives the authentication error. *)
Theorem login_by_revision (s : Legacy.State) (f : Current.Fusebill) (w : World) :
  (forall j, Legacy.cookieJar (Legacy.self s) = Some j ->
             Legacy.login s = (Returned None, s))
  /\
  (Legacy.cookieJar (Legacy.self s) = None ->
   forall req,
     PostForm_request (Legacy.login_url (Legacy.self s))
       (Legacy.login_data (Legacy.self s)) = inr req ->
     req = http.mkRequest "POST" (Legacy.BaseUrl (Legacy.self s) ++ "/api/Login/")
             [("Content-Type", "application/x-www-form-urlencoded")]
             (QueryEscape "password" ++ "="
                ++ QueryEscape (Legacy.Credentials.Password
                                  (Legacy.Credentials (Legacy.self s)))
                ++ "&" ++ QueryEscape "username" ++ "="
                ++ QueryEscape (Legacy.Credentials.Username
                                  (Legacy.Credentials (Legacy.self s))))
     /\ snd (Legacy.login s) = Legacy_after_login s req
     /\ forall resp,
          RoundTrip (sent (Legacy.world s)) (Legacy_login_client s) req = inr resp ->
          http.StatusCode resp <> http.StatusOK ->
          fst (Legacy.login s) = Returned (Some errLogin))
  /\
  (Current.cookieJar f = None ->
   Current.login f w = (Returned (Some errCookieJar), w))
  /\
  (forall j c req,
     Current.cookieJar f = Some j ->
     Current.Client f = Some c ->
     PostForm_request (Current.login_url f) (Current.login_data f) = inr req ->
     req = http.mkRequest "POST" (Current.BaseUrl f ++ "/api/Login/")
             [("Content-Type", "application/x-www-form-urlencoded")]
             (QueryEscape "password" ++ "="
                ++ QueryEscape (Credentials.Password (Current.Credentials f))
                ++ "&" ++ QueryEscape "username" ++ "="
                ++ QueryEscape (Credentials.Username (Current.Credentials f)))
     /\ snd (Current.login f w) = with_call w c req
     /\ forall resp,
          RoundTrip (sent w) c req = inr resp ->
          http.StatusCode resp <> http.StatusOK ->
          fst (Current.login f w) = Returned (Some errLogin)).
Proof.
  split; [| split; [| split]].
  - apply Legacy_login_with_jar.
  - intros Hjar req Hreq. split; [| split].
    + apply PostForm_request_inr in Hreq. rewrite Hreq.
      unfold Legacy.login_data, Legacy.login_url. now rewrite login_form.
    + unfold Legacy.login. steps. rewrite Hjar. steps.
      unfold Legacy.login_url, Legacy.login_data in *. steps. rewrite Hreq.
      destruct (RoundTrip _ _ req) as [e | resp]; [reflexivity |].
      destruct (negb (http.StatusCode resp =? http.StatusOK)); reflexivity.
    + intros resp Hresp Hstatus.
      rewrite (Legacy_login_answered s req resp Hjar Hreq Hresp).
      now rewrite (status_not_OK resp Hstatus).
  - apply Current_login_without_jar.
  - intros j c req Hjar Hc Hreq. split; [| split].
    + apply PostForm_request_inr in Hreq. rewrite Hreq.
      unfold Current.login_data, Current.login_url. now rewrite login_form.
    + unfold Current.login. rewrite Hjar. steps. rewrite Hreq, Hc.
      destruct (RoundTrip _ _ req) as [e | resp]; [reflexivity |].
      destruct (negb (http.StatusCode resp =? http.StatusOK)); reflexivity.
    + intros resp Hresp Hstatus.
      rewrite (Current_login_answered f w j c req resp Hjar Hc Hreq Hresp).
      now rewrite (status_not_OK resp Hstatus).
Qed.

End LoginProperties.

Lemma login_by_revision_witness :
  Legacy.cookieJar (Legacy.self (Legacy_jar_created Scenario.legacy_start)) = Some 0%nat
  /\ Legacy.login (R := Scenario.refusing) (Legacy_jar_created Scenario.legacy_start)
     = (Returned None, Legacy_jar_created Scenario.legacy_start)
  /\ Current.cookieJar Scenario.public_client = None
  /\ Current.login (R := Scenario.refusing) Scenario.public_client Scenario.empty
     = (Returned (Some errCookieJar), Scenario.empty)
  /\ fst (Current.login (R := Scenario.refusing) Scenario.private_client
            Scenario.after_private_client)
     = Returned (Some errLogin).
Proof.
  destruct (login_by_revision (R := Scenario.refusing)
              (Legacy_jar_created Scenario.legacy_start)
              Scenario.public_client Scenario.empty)
    as [HLegacy [_ [HCurrent _]]].
  destruct (login_by_revision (R := Scenario.refusing) Scenario.legacy_start
              Scenario.private_client Scenario.after_private_client)
    as [_ [_ [_ HPosted]]].
  split; [reflexivity |].
  split; [apply (HLegacy 0%nat); reflexivity |].
  split; [reflexivity |].
  split; [apply HCurrent; reflexivity |].
  destruct (HPosted 0%nat Scenario.private_http Scenario.login_request
              eq_refl eq_refl eq_refl) as [_ [_ HRefused]].
  apply (HRefused (http.mkResponse 401 (http.mkBody "" None))).
  - reflexivity.
  - vm_compute. discriminate.
Defined.

(** C2 as stated fails on the current revision: a client that has a cookie
    jar does not return at once; [login] posts the credentials, and here
    the service refuses them. *)
Lemma login_posts_despite_jar :
  Current.cookieJar Scenario.private_client = Some 0%nat
  /\ Current.login (R := Scenario.refusing) Scenario.private_client
       Scenario.after_private_client
     = (Returned (Some errLogin),
        with_call Scenario.after_private_client Scenario.private_http
          Scenario.login_request)
  /\ Current.login (R := Scenario.refusing) Scenario.private_client
       Scenario.after_private_client
     <> (Returned None, Scenario.after_private_client).
Proof.
  split; [reflexivity |]. split; [reflexivity |]. vm_compute. discriminate.
Qed.

Section JarProperties.

Context {R : GoRuntime}.

(** A call that only touches the world leaves the receiver and the
    package client alone. *)
Lemma in_world_self {A : Type} (m : M World A) (s : Legacy.State) :
  Legacy.self (snd (Legacy.in_world m s)) = Legacy.self s
  /\ Legacy.client (snd (Legacy.in_world m s)) = Legacy.client s.
Proof. unfold Legacy.in_world. destruct (m (Legacy.world s)); split; reflexivity. Qed.

Lemma Legacy_SendRequest_self (r : RequestDetails.t) (s : Legacy.State) :
  Legacy.self (snd (Legacy.SendRequest r s)) = Legacy.self s.
Proof.
  unfold Legacy.SendRequest. steps.
  destruct (Legacy.SendRequest_request (Legacy.self s) r) as [e | req];
    [reflexivity |].
  destruct (Legacy.Client (Legacy.self s)) as [c |]; [| reflexivity].
  destruct (RoundTrip _ c req) as [e | resp]; [reflexivity |].
  destruct (negb (http.StatusCode resp =? http.StatusOK)); [reflexivity |].
  destruct (http.ReadAll (http.RespBody resp)) as [b [e |]]; reflexivity.
Qed.

Lemma Legacy_GetInvoiceBalance_self (invoiceID : string) (s : Legacy.State) :
  Legacy.self (snd (Legacy.GetInvoiceBalance invoiceID s)) = Legacy.self s.
Proof.
  unfold Legacy.GetInvoiceBalance, bind.
  pose proof (Legacy_SendRequest_self
                (RequestDetails.mk "GET" ("/invoices/" ++ invoiceID) None) s) as H.
  destruct (Legacy.SendRequest _ s) as [[[resp err] |] s']; cbn in *;
    [| exact H].
  destruct err; exact H.
Qed.

Lemma Legacy_WriteOff_self (invoiceID : string) (balance : float64)
  (s : Legacy.State) (j : nat) :
  Legacy.cookieJar (Legacy.self s) = Some j ->
  Legacy.self (snd (Legacy.WriteOff invoiceID balance s)) = Legacy.self s.
Proof.
  intros Hjar. unfold Legacy.WriteOff.
  destruct (float64_le balance float64_zero); [reflexivity |].
  unfold bind at 1. rewrite (Legacy_login_with_jar s j Hjar). steps.
  destruct (Legacy.WriteOff_request (Legacy.self s) invoiceID balance)
    as [e | req]; [reflexivity |].
  steps. destruct (Legacy.client s) as [c |]; [| reflexivity].
  destruct (RoundTrip _ c req) as [e | resp]; [reflexivity |].
  destruct (negb (http.StatusCode resp =? http.StatusOK)); reflexivity.
Qed.

Lemma Legacy_step_self (s : Legacy.State) (c : LegacyCall.t) (j : nat) :
  Legacy.cookieJar (Legacy.self s) = Some j ->
  Legacy.self (Legacy_step s c) = Legacy.self s.
Proof.
  intros Hjar.
  destruct c as [| invoiceID balance | r | invoiceID]; unfold Legacy_step.
  - now rewrite (Legacy_login_with_jar s j Hjar).
  - now apply Legacy_WriteOff_self with (j := j).
  - apply Legacy_SendRequest_self.
  - apply Legacy_GetInvoiceBalance_self.
Qed.

Lemma Legacy_run_self (cs : list LegacyCall.t) (s : Legacy.State) (j : nat) :
  Legacy.cookieJar (Legacy.self s) = Some j ->
  Legacy.self (Legacy_run cs s) = Legacy.self s.
Proof.
  revert s. induction cs as [| c cs IH]; intros s Hjar; [reflexivity |].
  pose proof (Legacy_step_self s c j Hjar) as Hstep.
  change (Legacy_run (c :: cs) s) with (Legacy_run cs (Legacy_step s c)).
  rewrite IH; [exact Hstep | now rewrite Hstep].
Qed.

(** A [login] of the earlier revision that returns nil leaves a jar: the
    one it found, or the fresh one it allocated. *)
Lemma Legacy_login_nil_jar (s s' : Legacy.State) :
  Legacy.login s = (Returned None, s') ->
  Legacy.cookieJar (Legacy.self s') =
    match Legacy.cookieJar (Legacy.self s) with
    | Some j => Some j
    | None => Some (jars (Legacy.world s))
    end.
Proof.
  unfold Legacy.login. steps.
  destruct (Legacy.cookieJar (Legacy.self s)) as [j |] eqn:Hjar.
  - steps. intros H. inversion H. subst s'. exact Hjar.
  - steps. destruct (PostForm_request _ _) as [e | req]; steps.
    + discriminate.
    + destruct (RoundTrip _ _ req) as [e | resp]; [discriminate |].
      destruct (negb (http.StatusCode resp =? http.StatusOK));
        [discriminate |].
      intros H. inversion H. reflexivity.
Qed.

(** C3, as the code has it.  A jar, once the client has one, is never
    replaced or cleared: no sequence of calls of the earlier revision
    changes it (nor any other field of the client).  The earlier revision
    creates the jar inside [login]: [NewClient] leaves it nil,
    [SendRequest] and [GetInvoiceBalance] never assign it, and a [login]
    that returns nil on a client without a jar leaves the fresh jar it
    allocated.  The current revision creates the jar in
    [NewPrivateClient], before any login, and shares it with the HTTP
    client; [NewClient] leaves it nil and [login], which returns an error
    and a world only, assigns nothing. *)
Theorem cookieJar_set_once (s : Legacy.State) (j : nat) (cs : list LegacyCall.t) :
  Legacy.cookieJar (Legacy.self s) = Some j ->
  Legacy.cookieJar (Legacy.self (Legacy_run cs s)) = Some j
  /\ Legacy.self (Legacy_run cs s) = Legacy.self s
  /\ (forall baseUrl mode credentials,
        Legacy.cookieJar (Legacy.NewClient baseUrl mode credentials) = None)
  /\ (forall s0 r,
        Legacy.self (snd (Legacy.SendRequest r s0)) = Legacy.self s0)
  /\ (forall s0 invoiceID,
        Legacy.self (snd (Legacy.GetInvoiceBalance invoiceID s0)) = Legacy.self s0)
  /\ (forall s0 s1,
        Legacy.cookieJar (Legacy.self s0) = None ->
        Legacy.login s0 = (Returned None, s1) ->
        Legacy.cookieJar (Legacy.self s1) = Some (jars (Legacy.world s0)))
  /\ (forall mode credentials w,
        exists f,
          Current.NewPrivateClient mode credentials w
            = (Returned f, mkWorld (sent w) (S (jars w)))
          /\ Current.cookieJar f = Some (jars w)
          /\ Current.Client f = Some (http.mkClient (Some (jars w)) (Some 5)))
  /\ (forall mode credentials,
        Current.cookieJar (Current.NewClient mode credentials) = None).
Proof.
  intros Hjar.
  pose proof (Legacy_run_self cs s j Hjar) as Hself.
  split; [now rewrite Hself |]. split; [exact Hself |].
  split; [reflexivity |].
  split; [intros s0 r; apply Legacy_SendRequest_self |].
  split; [intros s0 invoiceID; apply Legacy_GetInvoiceBalance_self |].
  split.
  - intros s0 s1 Hnone Hlogin.
    rewrite (Legacy_login_nil_jar s0 s1 Hlogin). now rewrite Hnone.
  - split; [| reflexivity].
    intros mode credentials w. eexists. split; [reflexivity |].
    split; reflexivity.
Qed.

End JarProperties.

Lemma cookieJar_set_once_witness :
  Legacy.cookieJar (Legacy.self (Legacy_jar_created Scenario.legacy_start)) = Some 0%nat
  /\ Legacy.cookieJar
       (Legacy.self
          (Legacy_run (R := Scenario.accepting)
             [LegacyCall.login; LegacyCall.WriteOff "12" Scenario.f1;
              LegacyCall.GetInvoiceBalance "12"; LegacyCall.login]
             (Legacy_jar_created Scenario.legacy_start)))
     = Some 0%nat.
Proof.
  split; [reflexivity |].
  apply (cookieJar_set_once (R := Scenario.accepting)
           (Legacy_jar_created Scenario.legacy_start) 0%nat
           [LegacyCall.login; LegacyCall.WriteOff "12" Scenario.f1;
            LegacyCall.GetInvoiceBalance "12"; LegacyCall.login]).
  reflexivity.
Defined.

(** C3 as stated fails on the current revision: the client that
    [NewPrivateClient] returns has a cookie jar although no login, and no
    request at all, has taken place. *)
Lemma cookieJar_before_any_login :
  Current.NewPrivateClient "production" Scenario.credentials Scenario.empty
    = (Returned Scenario.private_client, Scenario.after_private_client)
  /\ Current.cookieJar Scenario.private_client = Some 0%nat
  /\ sent Scenario.after_private_client = [].
Proof. repeat split. Qed.

Section NewClientProperties.

Context {R : GoRuntime}.

(** C10.  In the current revision [login] fails with "cookie jar should
    be set" whenever the jar is nil.  [NewClient] leaves the jar nil, so
    on its clients [login] and, for a positive amount, [WriteOff] fail
    with that error and send nothing; [NewPrivateClient] sets the jar;
    and a [login] or [WriteOff] that returns nil was called on a client
    that has a jar. *)
Theorem NewClient_cannot_login (mode : string) (credentials : Credentials.t)
  (w : World) (invoiceID : string) (balance : float64) :
  float64_lt float64_zero balance = true ->
  (forall f, Current.cookieJar f = None ->
             Current.login f w = (Returned (Some errCookieJar), w))
  /\ Current.cookieJar (Current.NewClient mode credentials) = None
  /\ Current.login (Current.NewClient mode credentials) w
     = (Returned (Some errCookieJar), w)
  /\ Current.WriteOff (Current.NewClient mode credentials) invoiceID balance w
     = (Returned (Some errCookieJar), w)
  /\ (exists f w',
        Current.NewPrivateClient mode credentials w = (Returned f, w')
        /\ Current.cookieJar f <> None)
  /\ (forall f w', Current.login f w = (Returned None, w') ->
                   Current.cookieJar f <> None)
  /\ (forall f w', Current.WriteOff f invoiceID balance w = (Returned None, w') ->
                   Current.cookieJar f <> None).
Proof.
  intros Hpos. apply positive_not_le_zero in Hpos.
  assert (Hwriteoff : forall f, Current.cookieJar f = None ->
            Current.WriteOff f invoiceID balance w
            = (Returned (Some errCookieJar), w)).
  { intros f Hjar. unfold Current.WriteOff. rewrite Hpos. unfold bind.
    now rewrite (Current_login_without_jar f w Hjar). }
  split; [intros f; apply Current_login_without_jar |].
  split; [reflexivity |].
  split; [now apply Current_login_without_jar |].
  split; [now apply Hwriteoff |].
  split; [eexists; eexists; split; [reflexivity | discriminate] |].
  split.
  - intros f w' Hlogin Hjar.
    rewrite (Current_login_without_jar f w Hjar) in Hlogin. discriminate.
  - intros f w' Hcall Hjar. rewrite (Hwriteoff f Hjar) in Hcall. discriminate.
Qed.

End NewClientProperties.

Lemma NewClient_cannot_login_witness :
  float64_lt float64_zero Scenario.f1 = true
  /\ Current.WriteOff (R := Scenario.accepting)
       (Current.NewClient "production" Scenario.credentials) "12" Scenario.f1
       Scenario.empty
     = (Returned (Some "cookie jar should be set"), Scenario.empty).
Proof.
  split; [reflexivity |].
  apply (NewClient_cannot_login (R := Scenario.accepting) "production"
           Scenario.credentials Scenario.empty "12" Scenario.f1 eq_refl).
Defined.

(** ** SendRequest and GetInvoiceBalance *)

Section RequestProperties.

Context {R : GoRuntime}.

Lemma errRequest_contains (status : Z) (content : string) :
  Contains (errRequest status content) (Sprintf_d status)
  /\ Contains (errRequest status content) content.
Proof.
  unfold errRequest. split.
  - apply Contains_middle.
  - rewrite <- append_assoc, <- append_assoc. apply Contains_end.
Qed.

(** [SendRequest] once the transport has answered. *)
Lemma Current_SendRequest_answered (f : Current.Fusebill) (r : RequestDetails.t)
  (w : World) (c : http.Client) (req : http.Request) (resp : http.Response) :
  Current.Client f = Some c ->
  Current.SendRequest_request f r = inr req ->
  RoundTrip (sent w) c req = inr resp ->
  Current.SendRequest f r w =
    (Returned
       (if negb (http.StatusCode resp =? http.StatusOK)
        then (Response.zero,
              Some (errRequest (http.StatusCode resp)
                      (http.data (http.RespBody resp))))
        else match http.read_error (http.RespBody resp) with
             | Some err => (Response.zero, Some err)
             | None =>
                 (Response.mk (http.data (http.RespBody resp))
                    (http.StatusCode resp), None)
             end),
     with_call w c req).
Proof.
  intros Hc Hreq Hresp. unfold Current.SendRequest. rewrite Hreq. steps.
  rewrite Hc, Hresp.
  destruct (negb (http.StatusCode resp =? http.StatusOK)); [reflexivity |].
  unfold http.ReadAll.
  destruct (http.read_error (http.RespBody resp)); reflexivity.
Qed.

Lemma Legacy_SendRequest_answered (s : Legacy.State) (r : RequestDetails.t)
  (c : http.Client) (req : http.Request) (resp : http.Response) :
  Legacy.Client (Legacy.self s) = Some c ->
  Legacy.SendRequest_request (Legacy.self s) r = inr req ->
  RoundTrip (sent (Legacy.world s)) c req = inr resp ->
  Legacy.SendRequest r s =
    (Returned
       (if negb (http.StatusCode resp =? http.StatusOK)
        then (Response.zero,
              Some (errRequest (http.StatusCode resp)
                      (http.data (http.RespBody resp))))
        else match http.read_error (http.RespBody resp) with
             | Some err => (Response.zero, Some err)
             | None =>
                 (Response.mk (http.data (http.RespBody resp))
                    (http.StatusCode resp), None)
             end),
     Legacy.mkState (Legacy.self s) (Legacy.client s)
       (with_call (Legacy.world s) c req)).
Proof.
  intros Hc Hreq Hresp. unfold Legacy.SendRequest. steps. rewrite Hreq. steps.
  rewrite Hc, Hresp.
  destruct (negb (http.StatusCode resp =? http.StatusOK)); [reflexivity |].
  unfold http.ReadAll.
  destruct (http.read_error (http.RespBody resp)); reflexivity.
Qed.

(** C5, as the code has it.  When the response to the request of
    [SendRequest] has a status other than 200, [SendRequest] returns the
    zero [Response], whose body is empty, and an error whose message
    contains the status code in decimal and the text of the response body.
    When the status is 200 and the body is read to its end, it returns the
    body and the status with a nil error; when the status is 200 and
    reading the body fails, it returns the zero [Response] and the error
    of the read.  Both revisions agree. *)
Theorem SendRequest_by_status (r : RequestDetails.t) (c : http.Client)
  (req : http.Request) (resp : http.Response) :
  (forall f w,
      Current.Client f = Some c ->
      Current.SendRequest_request f r = inr req ->
      RoundTrip (sent w) c req = inr resp ->
      (http.StatusCode resp <> http.StatusOK ->
       exists msg,
         Current.SendRequest f r w
           = (Returned (Response.zero, Some msg), with_call w c req)
         /\ Response.Body Response.zero = ""
         /\ Contains msg (Sprintf_d (http.StatusCode resp))
         /\ Contains msg (http.data (http.RespBody resp)))
      /\
      (http.StatusCode resp = http.StatusOK ->
       http.read_error (http.RespBody resp) = None ->
       Current.SendRequest f r w
         = (Returned (Response.mk (http.data (http.RespBody resp)) http.StatusOK,
                      None),
            with_call w c req))
      /\
      (http.StatusCode resp = http.StatusOK ->
       forall e,
         http.read_error (http.RespBody resp) = Some e ->
         Current.SendRequest f r w
           = (Returned (Response.zero, Some e), with_call w c req)))
  /\
  (forall s,
      Legacy.Client (Legacy.self s) = Some c ->
      Legacy.SendRequest_request (Legacy.self s) r = inr req ->
      RoundTrip (sent (Legacy.world s)) c req = inr resp ->
      (http.StatusCode resp <> http.StatusOK ->
       exists msg,
         Legacy.SendRequest r s
           = (Returned (Response.zero, Some msg),
              Legacy.mkState (Legacy.self s) (Legacy.client s)
                (with_call (Legacy.world s) c req))
         /\ Response.Body Response.zero = ""
         /\ Contains msg (Sprintf_d (http.StatusCode resp))
         /\ Contains msg (http.data (http.RespBody resp)))
      /\
      (http.StatusCode resp = http.StatusOK ->
       http.read_error (http.RespBody resp) = None ->
       Legacy.SendRequest r s
         = (Returned (Response.mk (http.data (http.RespBody resp)) http.StatusOK,
                      None),
            Legacy.mkState (Legacy.self s) (Legacy.client s)
              (with_call (Legacy.world s) c req)))
      /\
      (http.StatusCode resp = http.StatusOK ->
       forall e,
         http.read_error (http.RespBody resp) = Some e ->
         Legacy.SendRequest r s
           = (Returned (Response.zero, Some e),
              Legacy.mkState (Legacy.self s) (Legacy.client s)
                (with_call (Legacy.world s) c req)))).
Proof.
  split.
  - intros f w Hc Hreq Hresp.
    rewrite (Current_SendRequest_answered f r w c req resp Hc Hreq Hresp).
    split; [| split].
    + intros Hstatus. rewrite (status_not_OK resp Hstatus).
      eexists. split; [reflexivity |]. split; [reflexivity |].
      apply errRequest_contains.
    + intros Hstatus Hread. rewrite (status_OK resp Hstatus), Hread, Hstatus.
      reflexivity.
    + intros Hstatus e Hread. rewrite (status_OK resp Hstatus), Hread.
      reflexivity.
  - intros s Hc Hreq Hresp.
    rewrite (Legacy_SendRequest_answered s r c req resp Hc Hreq Hresp).
    split; [| split].
    + intros Hstatus. rewrite (status_not_OK resp Hstatus).
      eexists. split; [reflexivity |]. split; [reflexivity |].
      apply errRequest_contains.
    + intros Hstatus Hread. rewrite (status_OK resp Hstatus), Hread, Hstatus.
      reflexivity.
    + intros Hstatus e Hread. rewrite (status_OK resp Hstatus), Hread.
      reflexivity.
Qed.

(** [GetInvoiceBalance] once [SendRequest] has returned without error: the
    error of the decoder is dropped, the field of the decoded struct is
    returned. *)
Lemma Current_GetInvoiceBalance_decoded (f : Current.Fusebill)
  (invoiceID : string) (w w' : World) (resp : Response.t) :
  Current.SendRequest f (RequestDetails.mk "GET" ("/invoices/" ++ invoiceID) None) w
    = (Returned (resp, None), w') ->
  Current.GetInvoiceBalance f invoiceID w =
    (Returned
       (Invoice.OutstandingBalance
          (fst (json_Unmarshal (Response.Body resp) (Invoice.mk float64_zero))),
        None),
     w').
Proof.
  intros Hsend. unfold Current.GetInvoiceBalance, bind. rewrite Hsend.
  reflexivity.
Qed.

Lemma Legacy_GetInvoiceBalance_decoded (invoiceID : string)
  (s s' : Legacy.State) (resp : Response.t) :
  Legacy.SendRequest (RequestDetails.mk "GET" ("/invoices/" ++ invoiceID) None) s
    = (Returned (resp, None), s') ->
  Legacy.GetInvoiceBalance invoiceID s =
    (Returned
       (Invoice.OutstandingBalance
          (fst (json_Unmarshal (Response.Body resp) (Invoice.mk float64_zero))),
        None),
     s').
Proof.
  intros Hsend. unfold Legacy.GetInvoiceBalance, bind. rewrite Hsend.
  reflexivity.
Qed.

(** Members that store no balance leave the struct as it was. *)
Lemma decode_members_untouched (ms : list (string * json.value))
  (st : Invoice.t * option json.Error) :
  existsb stores_balance ms = false ->
  fst (decode_members ms st) = fst st.
Proof.
  revert st. induction ms as [| [k v] ms IH]; intros st Hnone; [reflexivity |].
  cbn in Hnone. apply orb_false_iff in Hnone. destruct Hnone as [Hkv Hms].
  cbn [decode_members]. rewrite (IH _ Hms).
  unfold stores_balance, stored_value in Hkv. cbn [fst snd] in Hkv.
  destruct (names_field k); [| reflexivity].
  destruct v as [| b | lit | str | elems | members]; try reflexivity.
  cbn in *. destruct (ParseFloat lit); [discriminate |].
  destruct (stored_on_error lit); [discriminate | reflexivity].
Qed.

Lemma Unmarshal_untouched (body : string) (invoice : Invoice.t) :
  holds_balance body = false ->
  fst (json_Unmarshal body invoice) = invoice.
Proof.
  unfold holds_balance, json_Unmarshal.
  destruct (scan body) as [[| b | lit | str | elems | ms] |]; try reflexivity.
  intros Hnone. now rewrite (decode_members_untouched ms _ Hnone).
Qed.

(** Text that is not JSON, and an object without a member that names the
    field, hold no balance. *)
Lemma malformed_holds_no_balance (body : string) :
  scan body = None -> holds_balance body = false.
Proof. intros H. unfold holds_balance. now rewrite H. Qed.

Lemma missing_field_holds_no_balance (body : string)
  (ms : list (string * json.value)) :
  scan body = Some (json.Object ms) ->
  forallb (fun kv => negb (names_field (fst kv))) ms = true ->
  holds_balance body = false.
Proof.
  intros Hscan Hmissing. unfold holds_balance. rewrite Hscan. clear Hscan.
  induction ms as [| kv ms IH]; [reflexivity |].
  cbn in *. apply andb_true_iff in Hmissing. destruct Hmissing as [Hkv Hms].
  rewrite (IH Hms). unfold stores_balance.
  destruct (names_field (fst kv)); [discriminate | reflexivity].
Qed.

(** Nor does an object in which the field holds no number: [null], a
    string, a boolean, an array or an object. *)
Lemma no_number_holds_no_balance (body : string)
  (ms : list (string * json.value)) :
  scan body = Some (json.Object ms) ->
  forallb (fun kv => negb (names_field (fst kv)) || negb (is_number (snd kv))) ms
    = true ->
  holds_balance body = false.
Proof.
  intros Hscan Hnone. unfold holds_balance. rewrite Hscan. clear Hscan.
  induction ms as [| [k v] ms IH]; [reflexivity |].
  cbn in *. apply andb_true_iff in Hnone. destruct Hnone as [Hkv Hms].
  rewrite (IH Hms). unfold stores_balance. cbn [fst snd].
  destruct (names_field k); [| reflexivity].
  destruct v; try reflexivity. discriminate.
Qed.

(** The balance decoded from an object whose one member is the field with
    a number that does not parse: what the decoder stores, else 0. *)
Lemma Unmarshal_rejected_number (body k lit : string) :
  scan body = Some (json.Object [(k, json.Number lit)]) ->
  names_field k = true ->
  ParseFloat lit = None ->
  Invoice.OutstandingBalance
    (fst (json_Unmarshal body (Invoice.mk float64_zero)))
  = match stored_on_error lit with
    | Some x => x
    | None => float64_zero
    end.
Proof.
  intros Hscan Hk Hlit. unfold json_Unmarshal. rewrite Hscan.
  cbn [decode_members]. rewrite Hk. unfold store_float64. rewrite Hlit.
  cbn [fst]. destruct (stored_on_error lit); reflexivity.
Qed.

End RequestProperties.

Lemma SendRequest_by_status_witness :
  (exists msg,
      Current.SendRequest (R := Scenario.missing) Scenario.public_client
        Scenario.invoice_details Scenario.empty
      = (Returned (Response.zero, Some msg),
         with_call Scenario.empty Scenario.public_http Scenario.invoice_request)
      /\ Response.Body Response.zero = ""
      /\ Contains msg "404"
      /\ Contains msg "not found")
  /\ Current.SendRequest (R := Scenario.accepting) Scenario.public_client
       Scenario.invoice_details Scenario.empty
     = (Returned (Response.mk Scenario.body_balance 200, None),
        with_call Scenario.empty Scenario.public_http Scenario.invoice_request)
  /\ Current.SendRequest (R := Cases.truncated) Scenario.public_client
       Scenario.invoice_details Scenario.empty
     = (Returned (Response.zero, Some "unexpected EOF"),
        with_call Scenario.empty Scenario.public_http Scenario.invoice_request).
Proof.
  split; [| split].
  - destruct (SendRequest_by_status (R := Scenario.missing)
                Scenario.invoice_details Scenario.public_http
                Scenario.invoice_request
                (http.mkResponse 404 (http.mkBody "not found" None)))
      as [HCurrent _].
    destruct (HCurrent Scenario.public_client Scenario.empty
                eq_refl eq_refl eq_refl) as [HRefused _].
    apply HRefused. vm_compute. discriminate.
  - destruct (SendRequest_by_status (R := Scenario.accepting)
                Scenario.invoice_details Scenario.public_http
                Scenario.invoice_request
                (http.mkResponse 200 (http.mkBody Scenario.body_balance None)))
      as [HCurrent _].
    destruct (HCurrent Scenario.public_client Scenario.empty
                eq_refl eq_refl eq_refl) as [_ [HOK _]].
    apply HOK; reflexivity.
  - destruct (SendRequest_by_status (R := Cases.truncated)
                Scenario.invoice_details Scenario.public_http
                Scenario.invoice_request
                (http.mkResponse 200 (http.mkBody "{" (Some "unexpected EOF"))))
      as [HCurrent _].
    destruct (HCurrent Scenario.public_client Scenario.empty
                eq_refl eq_refl eq_refl) as [_ [_ HFailed]].
    apply HFailed; reflexivity.
Defined.

(** C5 as stated fails on a 200 response whose body cannot be read to its
    end: [SendRequest] returns the zero [Response] and the error of the
    read, not the body with a nil error. *)
Lemma SendRequest_200_body_unreadable :
  RoundTrip (GoRuntime := Cases.truncated) (sent Scenario.empty)
    Scenario.public_http Scenario.invoice_request
  = inr (http.mkResponse http.StatusOK (http.mkBody "{" (Some "unexpected EOF")))
  /\ Current.SendRequest (R := Cases.truncated) Scenario.public_client
       Scenario.invoice_details Scenario.empty
     = (Returned (Response.zero, Some "unexpected EOF"),
        with_call Scenario.empty Scenario.public_http Scenario.invoice_request)
  /\ fst (Legacy.SendRequest (R := Cases.truncated) Scenario.invoice_details
            Scenario.legacy_start)
     = Returned (Response.zero, Some "unexpected EOF").
Proof. repeat split. Qed.

Section BalanceProperties.

Context {R : GoRuntime}.

(** C6.  When [SendRequest] returns without error a body that is the
    JSON object with the one member [outstandingBalance] and a number
    that parses to [x], [GetInvoiceBalance] returns [x] and a nil error,
    in both revisions. *)
Theorem GetInvoiceBalance_returns_balance (invoiceID lit : string) (x : float64) :
  ParseFloat lit = Some x ->
  (forall f w w' resp,
      Current.SendRequest f
        (RequestDetails.mk "GET" ("/invoices/" ++ invoiceID) None) w
        = (Returned (resp, None), w') ->
      scan (Response.Body resp)
        = Some (json.Object [("outstandingBalance", json.Number lit)]) ->
      Current.GetInvoiceBalance f invoiceID w = (Returned (x, None), w'))
  /\
  (forall s s' resp,
      Legacy.SendRequest
        (RequestDetails.mk "GET" ("/invoices/" ++ invoiceID) None) s
        = (Returned (resp, None), s') ->
      scan (Response.Body resp)
        = Some (json.Object [("outstandingBalance", json.Number lit)]) ->
      Legacy.GetInvoiceBalance invoiceID s = (Returned (x, None), s')).
Proof.
  intros Hparse.
  assert (Hdecode : forall body,
            scan body = Some (json.Object [("outstandingBalance", json.Number lit)]) ->
            fst (json_Unmarshal body (Invoice.mk float64_zero)) = Invoice.mk x).
  { intros body Hscan. unfold json_Unmarshal. rewrite Hscan.
    cbn [decode_members]. unfold names_field. rewrite String.eqb_refl.
    cbn [orb store_float64]. now rewrite Hparse. }
  split.
  - intros f w w' resp Hsend Hscan.
    rewrite (Current_GetInvoiceBalance_decoded f invoiceID w w' resp Hsend).
    now rewrite (Hdecode _ Hscan).
  - intros s s' resp Hsend Hscan.
    rewrite (Legacy_GetInvoiceBalance_decoded invoiceID s s' resp Hsend).
    now rewrite (Hdecode _ Hscan).
Qed.

(** C8, as the code has it.  When [SendRequest] returns without error,
    [GetInvoiceBalance] drops the error of the decoder: its own error is
    nil and its value is the balance the decoder left in a fresh
    [Invoice].  That value is 0 whenever the decoder stores nothing into
    the field: for text that is not JSON, for an object without the
    field, and for an object in which the field holds no number.  For a
    number that does not parse the value is what the decoder stores beside
    its error: 0 with a decoder that leaves the field as it was, the
    infinity with one that stores it. *)
Theorem GetInvoiceBalance_drops_decode_error (invoiceID : string) :
  (forall f w w' resp,
      Current.SendRequest f
        (RequestDetails.mk "GET" ("/invoices/" ++ invoiceID) None) w
        = (Returned (resp, None), w') ->
      Current.GetInvoiceBalance f invoiceID w
        = (Returned
             (Invoice.OutstandingBalance
                (fst (json_Unmarshal (Response.Body resp)
                        (Invoice.mk float64_zero))),
              None),
           w')
      /\ (holds_balance (Response.Body resp) = false ->
          Current.GetInvoiceBalance f invoiceID w
            = (Returned (float64_zero, None), w'))
      /\ (scan (Response.Body resp) = None ->
          Current.GetInvoiceBalance f invoiceID w
            = (Returned (float64_zero, None), w'))
      /\ (forall ms,
            scan (Response.Body resp) = Some (json.Object ms) ->
            forallb (fun kv => negb (names_field (fst kv))) ms = true ->
            Current.GetInvoiceBalance f invoiceID w
              = (Returned (float64_zero, None), w'))
      /\ (forall ms,
            scan (Response.Body resp) = Some (json.Object ms) ->
            forallb (fun kv => negb (names_field (fst kv))
                               || negb (is_number (snd kv))) ms = true ->
            Current.GetInvoiceBalance f invoiceID w
              = (Returned (float64_zero, None), w'))
      /\ (forall k lit,
            scan (Response.Body resp) = Some (json.Object [(k, json.Number lit)]) ->
            names_field k = true ->
            ParseFloat lit = None ->
            Current.GetInvoiceBalance f invoiceID w
              = (Returned
                   (match stored_on_error lit with
                    | Some x => x
                    | None => float64_zero
                    end, None), w')))
  /\
  (forall s s' resp,
      Legacy.SendRequest
        (RequestDetails.mk "GET" ("/invoices/" ++ invoiceID) None) s
        = (Returned (resp, None), s') ->
      Legacy.GetInvoiceBalance invoiceID s
        = (Returned
             (Invoice.OutstandingBalance
                (fst (json_Unmarshal (Response.Body resp)
                        (Invoice.mk float64_zero))),
              None),
           s')
      /\ (holds_balance (Response.Body resp) = false ->
          Legacy.GetInvoiceBalance invoiceID s
            = (Returned (float64_zero, None), s'))
      /\ (scan (Response.Body resp) = None ->
          Legacy.GetInvoiceBalance invoiceID s
            = (Returned (float64_zero, None), s'))
      /\ (forall ms,
            scan (Response.Body resp) = Some (json.Object ms) ->
            forallb (fun kv => negb (names_field (fst kv))) ms = true ->
            Legacy.GetInvoiceBalance invoiceID s
              = (Returned (float64_zero, None), s'))
      /\ (forall ms,
            scan (Response.Body resp) = Some (json.Object ms) ->
            forallb (fun kv => negb (names_field (fst kv))
                               || negb (is_number (snd kv))) ms = true ->
            Legacy.GetInvoiceBalance invoiceID s
              = (Returned (float64_zero, None), s'))
      /\ (forall k lit,
            scan (Response.Body resp) = Some (json.Object [(k, json.Number lit)]) ->
            names_field k = true ->
            ParseFloat lit = None ->
            Legacy.GetInvoiceBalance invoiceID s
              = (Returned
                   (match stored_on_error lit with
                    | Some x => x
                    | None => float64_zero
                    end, None), s'))).
Proof.
  split.
  - intros f w w' resp Hsend.
    pose proof (Current_GetInvoiceBalance_decoded f invoiceID w w' resp Hsend)
      as Hget.
    assert (Hzero : holds_balance (Response.Body resp) = false ->
              Current.GetInvoiceBalance f invoiceID w
              = (Returned (float64_zero, None), w')).
    { intros Hnone. rewrite Hget.
      now rewrite (Unmarshal_untouched _ _ Hnone). }
    split; [exact Hget |]. split; [exact Hzero |]. split; [| split; [| split]].
    + intros Hscan. apply Hzero. now apply malformed_holds_no_balance.
    + intros ms Hscan Hmissing. apply Hzero.
      now apply missing_field_holds_no_balance with (ms := ms).
    + intros ms Hscan Hnone. apply Hzero.
      now apply no_number_holds_no_balance with (ms := ms).
    + intros k lit Hscan Hk Hlit. rewrite Hget.
      now rewrite (Unmarshal_rejected_number _ k lit Hscan Hk Hlit).
  - intros s s' resp Hsend.
    pose proof (Legacy_GetInvoiceBalance_decoded invoiceID s s' resp Hsend)
      as Hget.
    assert (Hzero : holds_balance (Response.Body resp) = false ->
              Legacy.GetInvoiceBalance invoiceID s
              = (Returned (float64_zero, None), s')).
    { intros Hnone. rewrite Hget.
      now rewrite (Unmarshal_untouched _ _ Hnone). }
    split; [exact Hget |]. split; [exact Hzero |]. split; [| split; [| split]].
    + intros Hscan. apply Hzero. now apply malformed_holds_no_balance.
    + intros ms Hscan Hmissing. apply Hzero.
      now apply missing_field_holds_no_balance with (ms := ms).
    + intros ms Hscan Hnone. apply Hzero.
      now apply no_number_holds_no_balance with (ms := ms).
    + intros k lit Hscan Hk Hlit. rewrite Hget.
      now rewrite (Unmarshal_rejected_number _ k lit Hscan Hk Hlit).
Qed.

End BalanceProperties.

Lemma GetInvoiceBalance_returns_balance_witness :
  ParseFloat (GoRuntime := Scenario.accepting) "42.5" = Some Scenario.f42_5
  /\ Current.GetInvoiceBalance (R := Scenario.accepting) Scenario.public_client
       "12" Scenario.empty
     = (Returned (Scenario.f42_5, None),
        with_call Scenario.empty Scenario.public_http Scenario.invoice_request).
Proof.
  split; [reflexivity |].
  destruct (GetInvoiceBalance_returns_balance (R := Scenario.accepting)
              "12" "42.5" Scenario.f42_5 eq_refl) as [HCurrent _].
  apply (HCurrent Scenario.public_client Scenario.empty
           (with_call Scenario.empty Scenario.public_http Scenario.invoice_request)
           (Response.mk Scenario.body_balance 200));
    reflexivity.
Defined.

Lemma GetInvoiceBalance_drops_decode_error_witness :
  (scan (GoRuntime := Scenario.garbled) "<html>" = None
   /\ Current.GetInvoiceBalance (R := Scenario.garbled) Scenario.public_client
        "12" Scenario.empty
      = (Returned (float64_zero, None),
         with_call Scenario.empty Scenario.public_http Scenario.invoice_request))
  /\ Current.GetInvoiceBalance (R := Cases.quoted) Scenario.public_client
       "12" Scenario.empty
     = (Returned (float64_zero, None),
        with_call Scenario.empty Scenario.public_http Scenario.invoice_request)
  /\ Current.GetInvoiceBalance (R := Cases.out_of_range) Scenario.public_client
       "12" Scenario.empty
     = (Returned (float64_zero, None),
        with_call Scenario.empty Scenario.public_http Scenario.invoice_request)
  /\ Current.GetInvoiceBalance (R := Cases.storing Cases.body_out_of_range)
       Scenario.public_client "12" Scenario.empty
     = (Returned (Cases.infinity, None),
        with_call Scenario.empty Scenario.public_http Scenario.invoice_request).
Proof.
  split; [split; [reflexivity |] | split; [| split]].
  - destruct (GetInvoiceBalance_drops_decode_error (R := Scenario.garbled) "12")
      as [HCurrent _].
    destruct (HCurrent Scenario.public_client Scenario.empty
                (with_call Scenario.empty Scenario.public_http
                   Scenario.invoice_request)
                (Response.mk "<html>" 200) eq_refl)
      as [_ [_ [HMalformed _]]].
    apply HMalformed. reflexivity.
  - destruct (GetInvoiceBalance_drops_decode_error (R := Cases.quoted) "12")
      as [HCurrent _].
    destruct (HCurrent Scenario.public_client Scenario.empty
                (with_call Scenario.empty Scenario.public_http
                   Scenario.invoice_request)
                (Response.mk Cases.body_string 200) eq_refl)
      as [_ [_ [_ [_ [HNoNumber _]]]]].
    apply (HNoNumber [(Scenario.key, json.Str "42.5")]); reflexivity.
  - destruct (GetInvoiceBalance_drops_decode_error (R := Cases.out_of_range) "12")
      as [HCurrent _].
    destruct (HCurrent Scenario.public_client Scenario.empty
                (with_call Scenario.empty Scenario.public_http
                   Scenario.invoice_request)
                (Response.mk Cases.body_out_of_range 200) eq_refl)
      as [_ [_ [_ [_ [_ HRejected]]]]].
    apply (HRejected Scenario.key "1e999"); reflexivity.
  - destruct (GetInvoiceBalance_drops_decode_error
                (R := Cases.storing Cases.body_out_of_range) "12")
      as [HCurrent _].
    destruct (HCurrent Scenario.public_client Scenario.empty
                (with_call Scenario.empty Scenario.public_http
                   Scenario.invoice_request)
                (Response.mk Cases.body_out_of_range 200) eq_refl)
      as [_ [_ [_ [_ [_ HRejected]]]]].
    apply (HRejected Scenario.key "1e999"); reflexivity.
Defined.

(** C8 as stated fails: the body
    [{"outstandingBalance": 42.5, "outstandingBalance": "x"}] does not
    decode, since the decoder reports the string it cannot store, yet the
    number stored before it is returned, not 0. *)
Lemma GetInvoiceBalance_balance_despite_decode_error :
  snd (json_Unmarshal (R := Scenario.twice) Scenario.body_twice
         (Invoice.mk float64_zero))
    = Some (json.UnmarshalTypeError "string")
  /\ Current.SendRequest (R := Scenario.twice) Scenario.public_client
       Scenario.invoice_details Scenario.empty
     = (Returned (Response.mk Scenario.body_twice 200, None),
        with_call Scenario.empty Scenario.public_http Scenario.invoice_request)
  /\ Current.GetInvoiceBalance (R := Scenario.twice) Scenario.public_client
       "12" Scenario.empty
     = (Returned (Scenario.f42_5, None),
        with_call Scenario.empty Scenario.public_http Scenario.invoice_request)
  /\ Scenario.f42_5 <> float64_zero.
Proof.
  split; [reflexivity |]. split; [reflexivity |]. split; [reflexivity |].
  discriminate.
Qed.

(** ** The invoice identifier *)

(** When [Atoi] reports a syntax error its value is 0. *)
Lemma Atoi_syntax_error_zero (s : string) :
  snd (strconv.Atoi s) = Some strconv.ErrSyntax -> fst (strconv.Atoi s) = 0.
Proof.
  unfold strconv.Atoi.
  destruct ((0 <? Z.of_nat (String.length s)) && (Z.of_nat (String.length s) <? 19)).
  - destruct s as [| c rest]; [reflexivity |].
    destruct (if strconv.is_sign c then rest else String c rest) as [| d ds];
      [reflexivity |].
    destruct (strconv.Atoi_digits 0 (String d ds)); [discriminate | reflexivity].
  - unfold strconv.ParseInt.
    destruct s as [| c rest]; [reflexivity |].
    destruct (strconv.ParseUint _ strconv.IntSize) as [un [[|] |]];
      try reflexivity;
      repeat match goal with
        | |- context [if ?b then _ else _] => destruct b
        end; cbn; try discriminate; reflexivity.
Qed.

(** A positive amount is not NaN. *)
Lemma positive_not_NaN (x : float64) :
  float64_lt float64_zero x = true -> IsNaN x = false.
Proof. destruct x; cbn; congruence. Qed.

Section InvoiceIdProperties.

Context {R : GoRuntime}.

(** The body [json.Marshal] gives for invoice 0 and a finite amount. *)
Lemma Marshal_invoice_zero (balance : float64) :
  IsInf balance = false -> IsNaN balance = false ->
  fst (json_Marshal (WriteOff.mk 0 balance))
  = "{" ++ dquote ++ "invoiceId" ++ dquote ++ ":0," ++ dquote ++ "amount"
        ++ dquote ++ ":" ++ FormatFloat balance ++ "}".
Proof.
  intros Hinf Hnan. unfold json_Marshal. cbn [WriteOff.Amount WriteOff.InvoiceId].
  rewrite Hinf, Hnan. reflexivity.
Qed.

Lemma Current_WriteOff_request_inr (f : Current.Fusebill) (invoiceID : string)
  (balance : float64) (req : http.Request) :
  Current.WriteOff_request f invoiceID balance = inr req ->
  req = http.mkRequest "POST" (Current.BaseUrl f ++ "/api/invoices/writeoff")
          [("Content-Type", "application/json")]
          (fst (json_Marshal (WriteOff.mk (fst (strconv.Atoi invoiceID)) balance))).
Proof.
  unfold Current.WriteOff_request, http_NewRequest.
  destruct (NewRequest_error "POST" _); [discriminate |].
  intros H. now inversion H.
Qed.

Lemma Legacy_WriteOff_request_inr (f : Legacy.Fusebill) (invoiceID : string)
  (balance : float64) (req : http.Request) :
  Legacy.WriteOff_request f invoiceID balance = inr req ->
  req = http.mkRequest "POST" (Legacy.BaseUrl f ++ "/api/invoices/writeoff")
          [("Content-Type", "application/json")]
          (fst (json_Marshal (WriteOff.mk (fst (strconv.Atoi invoiceID)) balance))).
Proof.
  unfold Legacy.WriteOff_request, http_NewRequest.
  destruct (NewRequest_error "POST" _); [discriminate |].
  intros H. now inversion H.
Qed.

(** C9, as the code has it.  For an invoice identifier on which [Atoi]
    reports a syntax error, a positive amount and a login that succeeded,
    [WriteOff] drops the error and posts to [/api/invoices/writeoff] the
    marshalled [WriteOff{InvoiceId: 0, Amount: balance}], which for a
    finite amount is [{"invoiceId":0,"amount":balance}]; what it returns
    is decided by the answer to that request, never a validation error. *)
Theorem WriteOff_invoiceID_syntax_error (invoiceID : string) (balance : float64) :
  snd (strconv.Atoi invoiceID) = Some strconv.ErrSyntax ->
  float64_lt float64_zero balance = true ->
  (forall f w w1 c req,
      Current.login f w = (Returned None, w1) ->
      Current.Client f = Some c ->
      Current.WriteOff_request f invoiceID balance = inr req ->
      Current.WriteOff f invoiceID balance w
        = (Returned
             match RoundTrip (sent w1) c req with
             | inl e => Some e
             | inr resp =>
                 if negb (http.StatusCode resp =? http.StatusOK)
                 then Some (errServer (http.StatusCode resp)
                              (http.data (http.RespBody resp)))
                 else None
             end,
           with_call w1 c req)
      /\ http.URL req = Current.BaseUrl f ++ "/api/invoices/writeoff"
      /\ http.Body req = fst (json_Marshal (WriteOff.mk 0 balance))
      /\ (IsInf balance = false ->
          http.Body req
          = "{" ++ dquote ++ "invoiceId" ++ dquote ++ ":0," ++ dquote
                ++ "amount" ++ dquote ++ ":" ++ FormatFloat balance ++ "}"))
  /\
  (forall s s1 c req,
      Legacy.login s = (Returned None, s1) ->
      Legacy.client s1 = Some c ->
      Legacy.WriteOff_request (Legacy.self s1) invoiceID balance = inr req ->
      Legacy.WriteOff invoiceID balance s
        = (Returned
             match RoundTrip (sent (Legacy.world s1)) c req with
             | inl e => Some e
             | inr resp =>
                 if negb (http.StatusCode resp =? http.StatusOK)
                 then Some (errServer (http.StatusCode resp)
                              (http.data (http.RespBody resp)))
                 else None
             end,
           Legacy.mkState (Legacy.self s1) (Legacy.client s1)
             (with_call (Legacy.world s1) c req))
      /\ http.URL req = Legacy.BaseUrl (Legacy.self s1) ++ "/api/invoices/writeoff"
      /\ http.Body req = fst (json_Marshal (WriteOff.mk 0 balance))
      /\ (IsInf balance = false ->
          http.Body req
          = "{" ++ dquote ++ "invoiceId" ++ dquote ++ ":0," ++ dquote
                ++ "amount" ++ dquote ++ ":" ++ FormatFloat balance ++ "}")).
Proof.
  intros Hsyntax Hpos.
  pose proof (Atoi_syntax_error_zero invoiceID Hsyntax) as Hzero.
  pose proof (positive_not_NaN balance Hpos) as Hnan.
  apply positive_not_le_zero in Hpos.
  split.
  - intros f w w1 c req Hlogin Hc Hreq. split.
    + unfold Current.WriteOff. rewrite Hpos. unfold bind at 1.
      rewrite Hlogin, Hreq. steps. rewrite Hc.
      destruct (RoundTrip (sent w1) c req) as [e | resp]; [reflexivity |].
      destruct (negb (http.StatusCode resp =? http.StatusOK)); reflexivity.
    + apply Current_WriteOff_request_inr in Hreq. rewrite Hzero in Hreq.
      subst req. cbn [http.URL http.Body].
      split; [reflexivity |]. split; [reflexivity |].
      intros Hinf. now apply Marshal_invoice_zero.
  - intros s s1 c req Hlogin Hc Hreq. split.
    + unfold Legacy.WriteOff. rewrite Hpos. unfold bind at 1.
      rewrite Hlogin. steps. rewrite Hreq. steps. rewrite Hc.
      destruct (RoundTrip (sent (Legacy.world s1)) c req) as [e | resp];
        [reflexivity |].
      destruct (negb (http.StatusCode resp =? http.StatusOK)); reflexivity.
    + apply Legacy_WriteOff_request_inr in Hreq. rewrite Hzero in Hreq.
      subst req. cbn [http.URL http.Body].
      split; [reflexivity |]. split; [reflexivity |].
      intros Hinf. now apply Marshal_invoice_zero.
Qed.

End InvoiceIdProperties.

Lemma WriteOff_invoiceID_syntax_error_witness :
  snd (strconv.Atoi "abc") = Some strconv.ErrSyntax
  /\ float64_lt float64_zero Scenario.f1 = true
  /\ Current.WriteOff (R := Scenario.accepting) Scenario.private_client "abc"
       Scenario.f1 Scenario.after_private_client
     = (Returned None,
        with_call
          (with_call Scenario.after_private_client Scenario.private_http
             Scenario.login_request)
          Scenario.private_http (Scenario.writeoff_request "0")).
Proof.
  split; [reflexivity |]. split; [reflexivity |].
  destruct (WriteOff_invoiceID_syntax_error (R := Scenario.accepting)
              "abc" Scenario.f1 eq_refl eq_refl) as [HCurrent _].
  destruct (HCurrent Scenario.private_client Scenario.after_private_client
              (with_call Scenario.after_private_client Scenario.private_http
                 Scenario.login_request)
              Scenario.private_http (Scenario.writeoff_request "0")
              eq_refl eq_refl eq_refl) as [HCall _].
  exact HCall.
Defined.

(** C9 as stated fails: [Atoi] reports an error on the identifier
    99999999999999999999, which is out of range, and the identifier that is
    posted is the largest [int], not 0. *)
Lemma WriteOff_invoiceID_out_of_range :
  strconv.Atoi "99999999999999999999"
    = (9223372036854775807, Some strconv.ErrRange)
  /\ float64_lt float64_zero Scenario.f1 = true
  /\ Current.WriteOff (R := Scenario.accepting) Scenario.private_client
       "99999999999999999999" Scenario.f1 Scenario.after_private_client
     = (Returned None,
        with_call
          (with_call Scenario.after_private_client Scenario.private_http
             Scenario.login_request)
          Scenario.private_http
          (Scenario.writeoff_request "9223372036854775807"))
  /\ Scenario.writeoff_request "9223372036854775807"
     <> Scenario.writeoff_request "0".
Proof.
  split; [reflexivity |]. split; [reflexivity |]. split; [reflexivity |].
  vm_compute. discriminate.
Qed.

(** * Further properties *)

(** ** WriteOff after the login *)

Section WriteOffOutcomes.

Context {R : GoRuntime}.

Lemma errServer_contains (status : Z) (body : string) :
  Contains (errServer status body) (Sprintf_d status)
  /\ Contains (errServer status body) body.
Proof.
  unfold errServer. split.
  - apply Contains_middle.
  - rewrite <- append_assoc, <- append_assoc. apply Contains_end.
Qed.

(** [WriteOff] of the current revision once the amount has passed the test
    and [login] has returned nil: the request is sent and its answer
    decides the result. *)
Lemma Current_WriteOff_after_login (f : Current.Fusebill) (invoiceID : string)
  (balance : float64) (w w1 : World) (c : http.Client) (req : http.Request) :
  float64_le balance float64_zero = false ->
  Current.login f w = (Returned None, w1) ->
  Current.Client f = Some c ->
  Current.WriteOff_request f invoiceID balance = inr req ->
  Current.WriteOff f invoiceID balance w
  = (Returned
       match RoundTrip (sent w1) c req with
       | inl e => Some e
       | inr resp =>
           if negb (http.StatusCode resp =? http.StatusOK)
           then Some (errServer (http.StatusCode resp)
                        (http.data (http.RespBody resp)))
           else None
       end,
     with_call w1 c req).
Proof.
  intros Hle Hlogin Hc Hreq. unfold Current.WriteOff. rewrite Hle.
  unfold bind at 1. rewrite Hlogin, Hreq. steps. rewrite Hc.
  destruct (RoundTrip (sent w1) c req) as [e | resp]; [reflexivity |].
  destruct (negb (http.StatusCode resp =? http.StatusOK)); reflexivity.
Qed.

Lemma Legacy_WriteOff_after_login (invoiceID : string) (balance : float64)
  (s s1 : Legacy.State) (c : http.Client) (req : http.Request) :
  float64_le balance float64_zero = false ->
  Legacy.login s = (Returned None, s1) ->
  Legacy.client s1 = Some c ->
  Legacy.WriteOff_request (Legacy.self s1) invoiceID balance = inr req ->
  Legacy.WriteOff invoiceID balance s
  = (Returned
       match RoundTrip (sent (Legacy.world s1)) c req with
       | inl e => Some e
       | inr resp =>
           if negb (http.StatusCode resp =? http.StatusOK)
           then Some (errServer (http.StatusCode resp)
                        (http.data (http.RespBody resp)))
           else None
       end,
     Legacy.mkState (Legacy.self s1) (Legacy.client s1)
       (with_call (Legacy.world s1) c req)).
Proof.
  intros Hle Hlogin Hc Hreq. unfold Legacy.WriteOff. rewrite Hle.
  unfold bind at 1. rewrite Hlogin. steps. rewrite Hreq. steps. rewrite Hc.
  destruct (RoundTrip (sent (Legacy.world s1)) c req) as [e | resp];
    [reflexivity |].
  destruct (negb (http.StatusCode resp =? http.StatusOK)); reflexivity.
Qed.

(** X1.  When the login has succeeded and the write-off request is answered
    with a status other than 200, [WriteOff] returns an error whose message
    contains the status code in decimal and the text of the response body,
    in both revisions. *)
Theorem WriteOff_server_error (invoiceID : string) (balance : float64)
  (c : http.Client) (req : http.Request) (resp : http.Response) :
  float64_le balance float64_zero = false ->
  http.StatusCode resp <> http.StatusOK ->
  (forall f w w1,
      Current.login f w = (Returned None, w1) ->
      Current.Client f = Some c ->
      Current.WriteOff_request f invoiceID balance = inr req ->
      RoundTrip (sent w1) c req = inr resp ->
      exists msg,
        Current.WriteOff f invoiceID balance w
          = (Returned (Some msg), with_call w1 c req)
        /\ Contains msg (Sprintf_d (http.StatusCode resp))
        /\ Contains msg (http.data (http.RespBody resp)))
  /\
  (forall s s1,
      Legacy.login s = (Returned None, s1) ->
      Legacy.client s1 = Some c ->
      Legacy.WriteOff_request (Legacy.self s1) invoiceID balance = inr req ->
      RoundTrip (sent (Legacy.world s1)) c req = inr resp ->
      exists msg,
        Legacy.WriteOff invoiceID balance s
          = (Returned (Some msg),
             Legacy.mkState (Legacy.self s1) (Legacy.client s1)
               (with_call (Legacy.world s1) c req))
        /\ Contains msg (Sprintf_d (http.StatusCode resp))
        /\ Contains msg (http.data (http.RespBody resp))).
Proof.
  intros Hle Hstatus. split.
  - intros f w w1 Hlogin Hc Hreq Hresp.
    rewrite (Current_WriteOff_after_login f invoiceID balance w w1 c req
               Hle Hlogin Hc Hreq).
    rewrite Hresp, (status_not_OK resp Hstatus).
    eexists. split; [reflexivity |]. apply errServer_contains.
  - intros s s1 Hlogin Hc Hreq Hresp.
    rewrite (Legacy_WriteOff_after_login invoiceID balance s s1 c req
               Hle Hlogin Hc Hreq).
    rewrite Hresp, (status_not_OK resp Hstatus).
    eexists. split; [reflexivity |]. apply errServer_contains.
Qed.

(** X2.  [WriteOff] returns the errors of the transport and of the
    construction of a request as they are, and stops: when the login
    request fails in the transport the write-off is not sent; when the
    write-off request cannot be built nothing more is sent; when it fails
    in the transport its error is the result. *)
Theorem WriteOff_transport_error (invoiceID : string) (balance : float64)
  (e : string) :
  float64_le balance float64_zero = false ->
  (forall f w j c lreq,
      Current.cookieJar f = Some j ->
      Current.Client f = Some c ->
      PostForm_request (Current.login_url f) (Current.login_data f) = inr lreq ->
      RoundTrip (sent w) c lreq = inl e ->
      Current.WriteOff f invoiceID balance w
        = (Returned (Some e), with_call w c lreq))
  /\
  (forall f w w1,
      Current.login f w = (Returned None, w1) ->
      Current.WriteOff_request f invoiceID balance = inl e ->
      Current.WriteOff f invoiceID balance w = (Returned (Some e), w1))
  /\
  (forall f w w1 c req,
      Current.login f w = (Returned None, w1) ->
      Current.Client f = Some c ->
      Current.WriteOff_request f invoiceID balance = inr req ->
      RoundTrip (sent w1) c req = inl e ->
      Current.WriteOff f invoiceID balance w
        = (Returned (Some e), with_call w1 c req))
  /\
  (forall s lreq,
      Legacy.cookieJar (Legacy.self s) = None ->
      PostForm_request (Legacy.login_url (Legacy.self s))
        (Legacy.login_data (Legacy.self s)) = inr lreq ->
      RoundTrip (sent (Legacy.world s)) (Legacy_login_client s) lreq = inl e ->
      Legacy.WriteOff invoiceID balance s
        = (Returned (Some e), Legacy_after_login s lreq))
  /\
  (forall s s1,
      Legacy.login s = (Returned None, s1) ->
      Legacy.WriteOff_request (Legacy.self s1) invoiceID balance = inl e ->
      Legacy.WriteOff invoiceID balance s = (Returned (Some e), s1))
  /\
  (forall s s1 c req,
      Legacy.login s = (Returned None, s1) ->
      Legacy.client s1 = Some c ->
      Legacy.WriteOff_request (Legacy.self s1) invoiceID balance = inr req ->
      RoundTrip (sent (Legacy.world s1)) c req = inl e ->
      Legacy.WriteOff invoiceID balance s
        = (Returned (Some e),
           Legacy.mkState (Legacy.self s1) (Legacy.client s1)
             (with_call (Legacy.world s1) c req))).
Proof.
  intros Hle. repeat apply conj.
  - intros f w j c lreq Hjar Hc Hlreq Hfail.
    unfold Current.WriteOff. rewrite Hle. unfold bind at 1.
    unfold Current.login. rewrite Hjar. steps. rewrite Hlreq, Hc, Hfail.
    reflexivity.
  - intros f w w1 Hlogin Hreq.
    unfold Current.WriteOff. rewrite Hle. unfold bind at 1.
    rewrite Hlogin, Hreq. reflexivity.
  - intros f w w1 c req Hlogin Hc Hreq Hfail.
    rewrite (Current_WriteOff_after_login f invoiceID balance w w1 c req
               Hle Hlogin Hc Hreq).
    now rewrite Hfail.
  - intros s lreq Hjar Hlreq Hfail.
    unfold Legacy.WriteOff. rewrite Hle. unfold bind at 1.
    unfold Legacy.login. steps. rewrite Hjar. steps.
    unfold Legacy.login_url, Legacy.login_data in *. steps. rewrite Hlreq.
    unfold Legacy_login_client in Hfail. steps. rewrite Hfail. reflexivity.
  - intros s s1 Hlogin Hreq.
    unfold Legacy.WriteOff. rewrite Hle. unfold bind at 1.
    rewrite Hlogin. steps. rewrite Hreq. destruct s1; reflexivity.
  - intros s s1 c req Hlogin Hc Hreq Hfail.
    rewrite (Legacy_WriteOff_after_login invoiceID balance s s1 c req
               Hle Hlogin Hc Hreq).
    now rewrite Hfail.
Qed.

End WriteOffOutcomes.

Lemma WriteOff_server_error_witness :
  float64_le Scenario.f1 float64_zero = false
  /\ exists msg,
       Current.WriteOff (R := Cases.rejecting) Scenario.private_client "12"
         Scenario.f1 Scenario.after_private_client
       = (Returned (Some msg),
          with_call Cases.after_login Scenario.private_http
            (Scenario.writeoff_request "12"))
       /\ Contains msg "422"
       /\ Contains msg "already written off".
Proof.
  split; [reflexivity |].
  destruct (WriteOff_server_error (R := Cases.rejecting) "12" Scenario.f1
              Scenario.private_http (Scenario.writeoff_request "12")
              (http.mkResponse 422 (http.mkBody "already written off" None))
              eq_refl ltac:(vm_compute; discriminate)) as [HCurrent _].
  apply (HCurrent Scenario.private_client Scenario.after_private_client
           Cases.after_login); reflexivity.
Defined.

Lemma WriteOff_transport_error_witness :
  float64_le Scenario.f1 float64_zero = false
  /\ Current.WriteOff (R := Cases.unreachable) Scenario.private_client "12"
       Scenario.f1 Scenario.after_private_client
     = (Returned (Some "connection refused"), Cases.after_login)
  /\ Legacy.WriteOff (R := Cases.unreachable) "12" Scenario.f1 Scenario.legacy_start
     = (Returned (Some "connection refused"),
        Legacy_after_login Scenario.legacy_start Scenario.login_request).
Proof.
  split; [reflexivity |].
  destruct (WriteOff_transport_error (R := Cases.unreachable) "12" Scenario.f1
              "connection refused" eq_refl)
    as [HCurrent [_ [_ [HLegacy _]]]].
  split.
  - apply (HCurrent Scenario.private_client Scenario.after_private_client 0%nat
             Scenario.private_http Scenario.login_request); reflexivity.
  - apply (HLegacy Scenario.legacy_start Scenario.login_request); reflexivity.
Defined.

Section WriteOffRequests.

Context {R : GoRuntime}.

(** What [login] of the current revision does to the world: nothing, and
    then it does not return nil; or it sends the login request, and then it
    returns nil only on a 200 answer. *)
Lemma Current_login_cases (f : Current.Fusebill) (w : World) :
  (snd (Current.login f w) = w /\ fst (Current.login f w) <> Returned None)
  \/ exists c lreq,
       Current.Client f = Some c
       /\ PostForm_request (Current.login_url f) (Current.login_data f) = inr lreq
       /\ snd (Current.login f w) = with_call w c lreq
       /\ (fst (Current.login f w) = Returned None ->
           exists lresp,
             RoundTrip (sent w) c lreq = inr lresp
             /\ http.StatusCode lresp = http.StatusOK).
Proof.
  unfold Current.login.
  destruct (Current.cookieJar f) as [j |]; [| left; split; [reflexivity | discriminate]].
  steps.
  destruct (PostForm_request (Current.login_url f) (Current.login_data f))
    as [e | lreq]; [left; split; [reflexivity | discriminate] |].
  destruct (Current.Client f) as [c |]; [| left; split; [reflexivity | discriminate]].
  right. exists c, lreq. split; [reflexivity |]. split; [reflexivity |].
  destruct (RoundTrip (sent w) c lreq) as [e | lresp];
    [split; [reflexivity | discriminate] |].
  destruct (negb (http.StatusCode lresp =? http.StatusOK)) eqn:Hstatus;
    (split; [reflexivity |]); [discriminate |].
  intros _. exists lresp. split; [reflexivity |].
  apply negb_false_iff in Hstatus. now apply Z.eqb_eq.
Qed.

(** X3.  What [WriteOff] of the current revision sends: nothing, or the
    login request, or the login request followed by the write-off request.
    The write-off request is sent only for an amount that passed the test,
    after the login request of the same call was answered with 200; no jar
    is allocated. *)
Theorem Current_WriteOff_requests (f : Current.Fusebill) (invoiceID : string)
  (balance : float64) (w : World) :
  jars (snd (Current.WriteOff f invoiceID balance w)) = jars w
  /\ (sent (snd (Current.WriteOff f invoiceID balance w)) = sent w
      \/ exists c lreq,
           Current.Client f = Some c
           /\ PostForm_request (Current.login_url f) (Current.login_data f)
              = inr lreq
           /\ (sent (snd (Current.WriteOff f invoiceID balance w))
               = (sent w ++ [http.mkCall c lreq])%list
               \/ exists wreq lresp,
                    float64_le balance float64_zero = false
                    /\ RoundTrip (sent w) c lreq = inr lresp
                    /\ http.StatusCode lresp = http.StatusOK
                    /\ Current.WriteOff_request f invoiceID balance = inr wreq
                    /\ sent (snd (Current.WriteOff f invoiceID balance w))
                       = (sent w ++ [http.mkCall c lreq; http.mkCall c wreq])%list)).
Proof.
  destruct (bool_dec (float64_le balance float64_zero) true) as [Hle | Hle].
  { unfold Current.WriteOff. rewrite Hle. split; [reflexivity | left; reflexivity]. }
  apply not_true_is_false in Hle.
  destruct (Current_login_cases f w)
    as [[Hworld Herr] | [c [lreq [Hc [Hlreq [Hworld Hnil]]]]]].
  - assert (Hsame : snd (Current.WriteOff f invoiceID balance w) = w).
    { unfold Current.WriteOff. rewrite Hle. unfold bind at 1.
      destruct (Current.login f w) as [[[e |] |] w1]; unfold ret;
        cbn [fst snd] in *; subst; try reflexivity.
      now contradiction Herr. }
    rewrite Hsame. split; [reflexivity | left; reflexivity].
  - destruct (Current.login f w) as [o w1] eqn:Hlogin. cbn [fst snd] in *.
    subst w1.
    assert (Hstop : forall o' : outcome error,
              Current.WriteOff f invoiceID balance w = (o', with_call w c lreq) ->
              jars (snd (Current.WriteOff f invoiceID balance w)) = jars w
              /\ (sent (snd (Current.WriteOff f invoiceID balance w)) = sent w
                  \/ exists c0 lreq0,
                       Current.Client f = Some c0
                       /\ PostForm_request (Current.login_url f)
                            (Current.login_data f) = inr lreq0
                       /\ (sent (snd (Current.WriteOff f invoiceID balance w))
                           = (sent w ++ [http.mkCall c0 lreq0])%list
                           \/ exists wreq lresp,
                                float64_le balance float64_zero = false
                                /\ RoundTrip (sent w) c0 lreq0 = inr lresp
                                /\ http.StatusCode lresp = http.StatusOK
                                /\ Current.WriteOff_request f invoiceID balance
                                   = inr wreq
                                /\ sent (snd (Current.WriteOff f invoiceID balance w))
                                   = (sent w ++ [http.mkCall c0 lreq0;
                                                http.mkCall c0 wreq])%list))).
    { intros o' Hcall. rewrite Hcall. split; [reflexivity |].
      right. exists c, lreq. split; [exact Hc |]. split; [exact Hlreq |].
      left. reflexivity. }
    destruct o as [[e |] |].
    + apply (Hstop (Returned (Some e))).
      unfold Current.WriteOff. rewrite Hle. unfold bind at 1. now rewrite Hlogin.
    + destruct (Hnil eq_refl) as [lresp [Hlresp HOK]].
      destruct (Current.WriteOff_request f invoiceID balance) as [e | wreq] eqn:Hwreq.
      * apply (Hstop (Returned (Some e))).
        unfold Current.WriteOff. rewrite Hle. unfold bind at 1.
        now rewrite Hlogin, Hwreq.
      * rewrite (Current_WriteOff_after_login f invoiceID balance w
                   (with_call w c lreq) c wreq Hle Hlogin Hc Hwreq).
        split; [reflexivity |].
        right. exists c, lreq. split; [exact Hc |]. split; [exact Hlreq |].
        right. exists wreq, lresp. repeat split; try assumption.
        cbn. now rewrite <- app_assoc.
    + apply (Hstop Panicked).
      unfold Current.WriteOff. rewrite Hle. unfold bind at 1. now rewrite Hlogin.
Qed.

(** X4.  An amount that is NaN passes the test [balance <= 0], and so does
    positive infinity; for both [json.Marshal] fails, its error is dropped,
    and the write-off request that is posted once the login has succeeded
    has an empty body. *)
Theorem WriteOff_NaN_or_infinite_amount (invoiceID : string) (balance : float64) :
  balance = S754_nan \/ balance = S754_infinity false ->
  float64_le balance float64_zero = false
  /\ (forall f req,
        Current.WriteOff_request f invoiceID balance = inr req ->
        http.Body req = "")
  /\ (forall f w w1 c req,
        Current.login f w = (Returned None, w1) ->
        Current.Client f = Some c ->
        Current.WriteOff_request f invoiceID balance = inr req ->
        snd (Current.WriteOff f invoiceID balance w) = with_call w1 c req)
  /\ (forall f req,
        Legacy.WriteOff_request f invoiceID balance = inr req ->
        http.Body req = "")
  /\ (forall s s1 c req,
        Legacy.login s = (Returned None, s1) ->
        Legacy.client s1 = Some c ->
        Legacy.WriteOff_request (Legacy.self s1) invoiceID balance = inr req ->
        Legacy.world (snd (Legacy.WriteOff invoiceID balance s))
        = with_call (Legacy.world s1) c req).
Proof.
  intros Hbalance.
  assert (Hle : float64_le balance float64_zero = false)
    by (destruct Hbalance; subst; reflexivity).
  assert (Hbody : forall i, fst (json_Marshal (WriteOff.mk i balance)) = "")
    by (intros i; destruct Hbalance; subst; reflexivity).
  split; [exact Hle |]. repeat apply conj.
  - intros f req Hreq. apply Current_WriteOff_request_inr in Hreq.
    subst req. apply Hbody.
  - intros f w w1 c req Hlogin Hc Hreq.
    now rewrite (Current_WriteOff_after_login f invoiceID balance w w1 c req
                   Hle Hlogin Hc Hreq).
  - intros f req Hreq. apply Legacy_WriteOff_request_inr in Hreq.
    subst req. apply Hbody.
  - intros s s1 c req Hlogin Hc Hreq.
    now rewrite (Legacy_WriteOff_after_login invoiceID balance s s1 c req
                   Hle Hlogin Hc Hreq).
Qed.

End WriteOffRequests.

Lemma WriteOff_NaN_or_infinite_amount_witness :
  float64_le S754_nan float64_zero = false
  /\ snd (Current.WriteOff (R := Scenario.accepting) Scenario.private_client "12"
            S754_nan Scenario.after_private_client)
     = with_call Cases.after_login Scenario.private_http
         (http.mkRequest "POST"
            "https://secure.fusebill.com/api/invoices/writeoff"
            [("Content-Type", "application/json")] "").
Proof.
  destruct (WriteOff_NaN_or_infinite_amount (R := Scenario.accepting) "12"
              S754_nan (or_introl eq_refl)) as [Hle [_ [HSent _]]].
  split; [exact Hle |].
  apply (HSent Scenario.private_client Scenario.after_private_client
           Cases.after_login Scenario.private_http); reflexivity.
Defined.

(** ** The session of the earlier revision *)

Section LegacySession.

Context {R : GoRuntime}.

(** After a [login] of the earlier revision the receiver has a jar,
    whatever the login returned. *)
Lemma Legacy_login_leaves_jar (s : Legacy.State) :
  Legacy.cookieJar (Legacy.self (snd (Legacy.login s))) <> None.
Proof.
  unfold Legacy.login. steps.
  destruct (Legacy.cookieJar (Legacy.self s)) as [j |] eqn:Hjar.
  - steps. now rewrite Hjar.
  - steps. destruct (PostForm_request _ _) as [e | req]; steps; [discriminate |].
    destruct (RoundTrip _ _ req) as [e | resp]; [discriminate |].
    destruct (negb (http.StatusCode resp =? http.StatusOK)); discriminate.
Qed.

(** X5.  In the earlier revision one login attempt is all there is: once
    [login] has run, every later [login] returns nil and sends nothing,
    whatever the first one returned.  So after a login that was refused
    (a status other than 200) the next [WriteOff] with an amount that
    passes the test posts its write-off request without a login request. *)
Theorem Legacy_login_once (s : Legacy.State) (req : http.Request)
  (resp : http.Response) :
  Legacy.cookieJar (Legacy.self s) = None ->
  PostForm_request (Legacy.login_url (Legacy.self s))
    (Legacy.login_data (Legacy.self s)) = inr req ->
  RoundTrip (sent (Legacy.world s)) (Legacy_login_client s) req = inr resp ->
  http.StatusCode resp <> http.StatusOK ->
  Legacy.login s = (Returned (Some errLogin), Legacy_after_login s req)
  /\ Legacy.login (Legacy_after_login s req)
     = (Returned None, Legacy_after_login s req)
  /\ (forall invoiceID balance wreq,
        float64_le balance float64_zero = false ->
        Legacy.WriteOff_request (Legacy.self s) invoiceID balance = inr wreq ->
        Legacy.world (snd (Legacy.WriteOff invoiceID balance (Legacy_after_login s req)))
        = with_call (Legacy.world (Legacy_after_login s req))
            (Legacy_login_client s) wreq)
  /\ (forall s0, Legacy.login (snd (Legacy.login s0))
                 = (Returned None, snd (Legacy.login s0))).
Proof.
  intros Hjar Hreq Hresp Hstatus.
  assert (Hagain : forall s0, Legacy.login (snd (Legacy.login s0))
                              = (Returned None, snd (Legacy.login s0))).
  { intros s0. pose proof (Legacy_login_leaves_jar s0) as Hset.
    destruct (Legacy.cookieJar (Legacy.self (snd (Legacy.login s0)))) as [j |] eqn:Hj;
      [| congruence].
    now apply Legacy_login_with_jar with (j := j). }
  assert (Hfirst : Legacy.login s
                   = (Returned (Some errLogin), Legacy_after_login s req)).
  { rewrite (Legacy_login_answered s req resp Hjar Hreq Hresp).
    now rewrite (status_not_OK resp Hstatus). }
  assert (Hsecond : Legacy.login (Legacy_after_login s req)
                    = (Returned None, Legacy_after_login s req)).
  { pose proof (Hagain s) as H. now rewrite Hfirst in H. }
  split; [exact Hfirst |]. split; [exact Hsecond |]. split; [| exact Hagain].
  intros invoiceID balance wreq Hle Hwreq.
  rewrite (Legacy_WriteOff_after_login invoiceID balance
             (Legacy_after_login s req) (Legacy_after_login s req)
             (Legacy_login_client s) wreq Hle Hsecond eq_refl Hwreq).
  reflexivity.
Qed.

(** The state [login] leaves: the one it found, or the one in which the
    jar is created, with some world. *)
Lemma Legacy_login_state (s : Legacy.State) :
  snd (Legacy.login s) = s
  \/ exists w, snd (Legacy.login s)
               = Legacy.mkState (Legacy.self (Legacy_jar_created s))
                   (Legacy.client (Legacy_jar_created s)) w.
Proof.
  unfold Legacy.login. steps.
  destruct (Legacy.cookieJar (Legacy.self s)) as [j |]; [left; reflexivity |].
  right. steps.
  destruct (PostForm_request _ _) as [e | req]; steps; [eexists; reflexivity |].
  destruct (RoundTrip _ _ req) as [e | resp]; [eexists; reflexivity |].
  destruct (negb (http.StatusCode resp =? http.StatusOK)); eexists; reflexivity.
Qed.

(** A wired state stays wired, and no call panics in it. *)
Lemma Legacy_login_wired (s : Legacy.State) :
  Legacy_wired s = true ->
  Legacy_wired (snd (Legacy.login s)) = true
  /\ panicked (fst (Legacy.login s)) = false.
Proof.
  intros Hwired. split.
  - destruct (Legacy_login_state s) as [Hsame | [w Hnew]].
    + now rewrite Hsame.
    + rewrite Hnew. unfold Legacy_wired in *. cbn.
      destruct (Legacy.Client (Legacy.self s)); [reflexivity | discriminate].
  - unfold Legacy.login. steps.
    destruct (Legacy.cookieJar (Legacy.self s)) as [j |]; [reflexivity |].
    steps. destruct (PostForm_request _ _) as [e | req]; steps; [reflexivity |].
    destruct (RoundTrip _ _ req) as [e | resp]; [reflexivity |].
    destruct (negb (http.StatusCode resp =? http.StatusOK)); reflexivity.
Qed.

Lemma Legacy_SendRequest_wired (r : RequestDetails.t) (s : Legacy.State) :
  Legacy_wired s = true ->
  Legacy_wired (snd (Legacy.SendRequest r s)) = true
  /\ panicked (fst (Legacy.SendRequest r s)) = false.
Proof.
  intros Hwired.
  assert (Hc : exists c, Legacy.Client (Legacy.self s) = Some c).
  { unfold Legacy_wired in Hwired.
    destruct (Legacy.Client (Legacy.self s)) as [c |]; [now exists c | discriminate]. }
  destruct Hc as [c Hc].
  unfold Legacy.SendRequest. steps.
  destruct (Legacy.SendRequest_request (Legacy.self s) r) as [e | req];
    [split; [exact Hwired | reflexivity] |].
  steps. rewrite Hc.
  destruct (RoundTrip _ c req) as [e | resp];
    [split; [exact Hwired | reflexivity] |].
  destruct (negb (http.StatusCode resp =? http.StatusOK));
    [split; [exact Hwired | reflexivity] |].
  destruct (http.ReadAll (http.RespBody resp)) as [b [e |]];
    split; solve [exact Hwired | reflexivity].
Qed.

Lemma Legacy_GetInvoiceBalance_wired (invoiceID : string) (s : Legacy.State) :
  Legacy_wired s = true ->
  Legacy_wired (snd (Legacy.GetInvoiceBalance invoiceID s)) = true
  /\ panicked (fst (Legacy.GetInvoiceBalance invoiceID s)) = false.
Proof.
  intros Hwired. unfold Legacy.GetInvoiceBalance, bind.
  pose proof (Legacy_SendRequest_wired
                (RequestDetails.mk "GET" ("/invoices/" ++ invoiceID) None) s Hwired)
    as [Hs Hp].
  destruct (Legacy.SendRequest _ s) as [[[resp err] |] s']; cbn [fst snd] in *;
    [| discriminate].
  destruct err; split; solve [exact Hs | reflexivity].
Qed.

Lemma Legacy_WriteOff_wired (invoiceID : string) (balance : float64)
  (s : Legacy.State) :
  Legacy_wired s = true ->
  Legacy_wired (snd (Legacy.WriteOff invoiceID balance s)) = true
  /\ panicked (fst (Legacy.WriteOff invoiceID balance s)) = false.
Proof.
  intros Hwired.
  remember (Legacy.WriteOff invoiceID balance s) as res eqn:Hres.
  unfold Legacy.WriteOff in Hres.
  destruct (float64_le balance float64_zero);
    [subst res; split; [exact Hwired | reflexivity] |].
  unfold bind at 1 in Hres.
  pose proof (Legacy_login_wired s Hwired) as [Hs Hp].
  pose proof (Legacy_login_leaves_jar s) as Hjar.
  destruct (Legacy.login s) as [[[e |] |] s1]; cbn [fst snd] in *;
    [subst res; split; [exact Hs | reflexivity] | | discriminate].
  revert Hres. steps.
  destruct (Legacy.WriteOff_request (Legacy.self s1) invoiceID balance)
    as [e | req];
    [intros Hres; subst res; split; [destruct s1; exact Hs | reflexivity] |].
  steps.
  assert (Hc : exists c, Legacy.client s1 = Some c).
  { unfold Legacy_wired in Hs.
    destruct (Legacy.Client (Legacy.self s1)) as [c0 |]; [| discriminate].
    destruct (Legacy.cookieJar (Legacy.self s1)) as [j |]; [| congruence].
    destruct (Legacy.client s1) as [c |]; [now exists c | discriminate]. }
  destruct Hc as [c Hc]. rewrite Hc.
  destruct (RoundTrip _ c req) as [e | resp];
    [intros Hres; subst res; split; [rewrite <- Hc; exact Hs | reflexivity] |].
  destruct (negb (http.StatusCode resp =? http.StatusOK));
    intros Hres; subst res; split; solve [rewrite <- Hc; exact Hs | reflexivity].
Qed.

Lemma Legacy_step_wired (s : Legacy.State) (c : LegacyCall.t) :
  Legacy_wired s = true ->
  Legacy_wired (Legacy_step s c) = true /\ Legacy_panics c s = false.
Proof.
  intros Hwired. destruct c as [| invoiceID balance | r | invoiceID];
    unfold Legacy_step, Legacy_panics.
  - now apply Legacy_login_wired.
  - now apply Legacy_WriteOff_wired.
  - now apply Legacy_SendRequest_wired.
  - now apply Legacy_GetInvoiceBalance_wired.
Qed.

Lemma Legacy_run_wired (cs : list LegacyCall.t) (s : Legacy.State) :
  Legacy_wired s = true -> Legacy_wired (Legacy_run cs s) = true.
Proof.
  revert s. induction cs as [| c cs IH]; intros s Hwired; [exact Hwired |].
  change (Legacy_run (c :: cs) s) with (Legacy_run cs (Legacy_step s c)).
  apply IH. now apply Legacy_step_wired.
Qed.

(** X6.  No call dereferences a nil HTTP client on a client that a
    constructor built.  In the earlier revision, after any sequence of
    calls on a client of [NewClient], whatever the package client was at
    the start, [f.Client] is set and [WriteOff] finds the package client
    set whenever [login] lets it through.  In the current revision no call
    finds [f.Client] nil on a client of [NewClient] or [NewPrivateClient].
    The nil HTTP client is the one panic of the package's own code, so
    [login], [WriteOff] and [GetInvoiceBalance] do not panic on such
    clients; for [SendRequest] this holds for the bodies of
    [RequestDetails.t], the nil reader and a reader over a string, and
    says nothing of a reader on which [http.NewRequest] itself panics. *)
Theorem constructed_clients_no_nil_client :
  (forall baseUrl mode credentials package_client w cs call,
      Legacy_panics call
        (Legacy_run cs
           (Legacy.mkState (Legacy.NewClient baseUrl mode credentials)
              package_client w))
      = false)
  /\ (forall f invoiceID balance r w,
        Current.Client f <> None ->
        panicked (fst (Current.login f w)) = false
        /\ panicked (fst (Current.WriteOff f invoiceID balance w)) = false
        /\ panicked (fst (Current.SendRequest f r w)) = false
        /\ panicked (fst (Current.GetInvoiceBalance f invoiceID w)) = false)
  /\ (forall mode credentials,
        Current.Client (Current.NewClient mode credentials) <> None)
  /\ (forall mode credentials w,
        exists f w',
          Current.NewPrivateClient mode credentials w = (Returned f, w')
          /\ Current.Client f <> None).
Proof.
  split; [| split; [| split]].
  - intros baseUrl mode credentials package_client w cs call.
    apply Legacy_step_wired, Legacy_run_wired.
    unfold Legacy_wired. cbn. destruct package_client; reflexivity.
  - intros f invoiceID balance r w Hclient.
    destruct (Current.Client f) as [c |] eqn:Hc; [clear Hclient | congruence].
    assert (Hlogin : panicked (fst (Current.login f w)) = false).
    { unfold Current.login. destruct (Current.cookieJar f); [| reflexivity].
      steps. destruct (PostForm_request _ _) as [e | req]; [reflexivity |].
      rewrite Hc. destruct (RoundTrip _ c req) as [e | resp]; [reflexivity |].
      destruct (negb (http.StatusCode resp =? http.StatusOK)); reflexivity. }
    assert (Hsend : forall r0, panicked (fst (Current.SendRequest f r0 w)) = false).
    { intros r0. unfold Current.SendRequest.
      destruct (Current.SendRequest_request f r0) as [e | req]; [reflexivity |].
      steps. rewrite Hc. destruct (RoundTrip _ c req) as [e | resp]; [reflexivity |].
      destruct (negb (http.StatusCode resp =? http.StatusOK)); [reflexivity |].
      destruct (http.ReadAll (http.RespBody resp)) as [b [e |]]; reflexivity. }
    split; [exact Hlogin |]. split; [| split; [apply Hsend |]].
    + unfold Current.WriteOff.
      destruct (float64_le balance float64_zero); [reflexivity |].
      unfold bind at 1.
      destruct (Current.login f w) as [[[e |] |] w1]; cbn [fst] in Hlogin;
        [reflexivity | | discriminate].
      destruct (Current.WriteOff_request f invoiceID balance) as [e | req];
        [reflexivity |].
      steps. rewrite Hc. destruct (RoundTrip _ c req) as [e | resp]; [reflexivity |].
      destruct (negb (http.StatusCode resp =? http.StatusOK)); reflexivity.
    + unfold Current.GetInvoiceBalance, bind.
      specialize (Hsend (RequestDetails.mk "GET" ("/invoices/" ++ invoiceID) None)).
      destruct (Current.SendRequest f _ w) as [[[resp err] |] w1];
        cbn [fst] in Hsend; [| discriminate].
      destruct err; reflexivity.
  - intros mode credentials. discriminate.
  - intros mode credentials w. eexists. eexists. split; [reflexivity |].
    discriminate.
Qed.

End LegacySession.

Lemma Legacy_login_once_witness :
  Legacy.cookieJar (Legacy.self Scenario.legacy_start) = None
  /\ Legacy.login (R := Scenario.refusing) Scenario.legacy_start
     = (Returned (Some errLogin),
        Legacy_after_login Scenario.legacy_start Scenario.login_request)
  /\ Legacy.login (R := Scenario.refusing)
       (Legacy_after_login Scenario.legacy_start Scenario.login_request)
     = (Returned None,
        Legacy_after_login Scenario.legacy_start Scenario.login_request)
  /\ Legacy.world
       (snd (Legacy.WriteOff (R := Scenario.refusing) "12" Scenario.f1
               (Legacy_after_login Scenario.legacy_start Scenario.login_request)))
     = with_call
         (Legacy.world
            (Legacy_after_login Scenario.legacy_start Scenario.login_request))
         (Legacy_login_client Scenario.legacy_start)
         (Scenario.writeoff_request "12").
Proof.
  split; [reflexivity |].
  destruct (Legacy_login_once (R := Scenario.refusing) Scenario.legacy_start
              Scenario.login_request
              (http.mkResponse 401 (http.mkBody "" None))
              eq_refl eq_refl eq_refl ltac:(vm_compute; discriminate))
    as [HFirst [HSecond [HWriteOff _]]].
  split; [exact HFirst |]. split; [exact HSecond |].
  apply HWriteOff; reflexivity.
Defined.

Lemma constructed_clients_no_nil_client_witness :
  Current.Client Scenario.private_client <> None
  /\ panicked (fst (Current.WriteOff (R := Cases.unreachable)
                      Scenario.private_client "12" Scenario.f1
                      Scenario.after_private_client))
     = false.
Proof.
  split; [discriminate |].
  destruct (constructed_clients_no_nil_client (R := Cases.unreachable))
    as [_ [HCurrent _]].
  apply (HCurrent Scenario.private_client "12" Scenario.f1
           Scenario.invoice_details Scenario.after_private_client).
  discriminate.
Defined.

(** ** The results of SendRequest and GetInvoiceBalance *)

Section RequestResults.

Context {R : GoRuntime}.

(** What [SendRequest] of the current revision returns, case by case. *)
Lemma Current_SendRequest_cases (f : Current.Fusebill) (r : RequestDetails.t)
  (w : World) :
  (exists o, Current.SendRequest f r w = (o, w)
             /\ (o = Panicked \/ exists e, o = Returned (Response.zero, Some e)))
  \/ exists c req,
       Current.Client f = Some c
       /\ Current.SendRequest_request f r = inr req
       /\ ((exists e, Current.SendRequest f r w
                      = (Returned (Response.zero, Some e), with_call w c req))
           \/ exists body,
                RoundTrip (sent w) c req
                = inr (http.mkResponse http.StatusOK (http.mkBody body None))
                /\ Current.SendRequest f r w
                   = (Returned (Response.mk body http.StatusOK, None),
                      with_call w c req)).
Proof.
  unfold Current.SendRequest.
  destruct (Current.SendRequest_request f r) as [e | req] eqn:Hreq.
  { left. eexists. split; [reflexivity |]. right. now exists e. }
  steps. destruct (Current.Client f) as [c |] eqn:Hc.
  2: { left. eexists. split; [reflexivity |]. now left. }
  right. exists c, req. split; [reflexivity |]. split; [reflexivity |].
  destruct (RoundTrip (sent w) c req) as [e | [status [body err]]] eqn:Hresp.
  { left. now exists e. }
  cbn [http.StatusCode http.RespBody http.ReadAll http.data http.read_error fst].
  destruct (negb (status =? http.StatusOK)) eqn:Hstatus.
  { left. eexists. reflexivity. }
  apply negb_false_iff in Hstatus. apply Z.eqb_eq in Hstatus. subst status.
  destruct err as [e |].
  { left. now exists e. }
  right. exists body. split; reflexivity.
Qed.

Lemma Legacy_SendRequest_cases (r : RequestDetails.t) (s : Legacy.State) :
  (exists o, Legacy.SendRequest r s = (o, s)
             /\ (o = Panicked \/ exists e, o = Returned (Response.zero, Some e)))
  \/ exists c req,
       Legacy.Client (Legacy.self s) = Some c
       /\ Legacy.SendRequest_request (Legacy.self s) r = inr req
       /\ ((exists e, Legacy.SendRequest r s
                      = (Returned (Response.zero, Some e),
                         Legacy.mkState (Legacy.self s) (Legacy.client s)
                           (with_call (Legacy.world s) c req)))
           \/ exists body,
                RoundTrip (sent (Legacy.world s)) c req
                = inr (http.mkResponse http.StatusOK (http.mkBody body None))
                /\ Legacy.SendRequest r s
                   = (Returned (Response.mk body http.StatusOK, None),
                      Legacy.mkState (Legacy.self s) (Legacy.client s)
                        (with_call (Legacy.world s) c req))).
Proof.
  unfold Legacy.SendRequest. steps.
  destruct (Legacy.SendRequest_request (Legacy.self s) r) as [e | req] eqn:Hreq.
  { left. eexists. split; [reflexivity |]. right. now exists e. }
  steps. destruct (Legacy.Client (Legacy.self s)) as [c |] eqn:Hc.
  2: { left. eexists. split; [destruct s; reflexivity |]. now left. }
  right. exists c, req. split; [reflexivity |]. split; [reflexivity |].
  destruct (RoundTrip (sent (Legacy.world s)) c req)
    as [e | [status [body err]]] eqn:Hresp.
  { left. now exists e. }
  cbn [http.StatusCode http.RespBody http.ReadAll http.data http.read_error fst].
  destruct (negb (status =? http.StatusOK)) eqn:Hstatus.
  { left. eexists. reflexivity. }
  apply negb_false_iff in Hstatus. apply Z.eqb_eq in Hstatus. subst status.
  destruct err as [e |].
  { left. now exists e. }
  right. exists body. split; reflexivity.
Qed.

(** X7.  What a result of [SendRequest] tells its caller, in both
    revisions: with an error the [Response] is the zero value; with a nil
    error the status is 200, exactly one request was sent, through
    [f.Client], and the body is the body of its answer, read whole.
    [SendRequest] sends at most that one request, never a login, and does
    not touch the client. *)
Theorem SendRequest_result (r : RequestDetails.t) (resp : Response.t)
  (err : error) :
  (forall f w w',
      Current.SendRequest f r w = (Returned (resp, err), w') ->
      (err <> None -> resp = Response.zero)
      /\ (err = None ->
          Response.StatusCode resp = http.StatusOK
          /\ exists c req,
               Current.Client f = Some c
               /\ Current.SendRequest_request f r = inr req
               /\ w' = with_call w c req
               /\ RoundTrip (sent w) c req
                  = inr (http.mkResponse http.StatusOK
                           (http.mkBody (Response.Body resp) None)))
      /\ (w' = w
          \/ exists c req,
               Current.Client f = Some c
               /\ Current.SendRequest_request f r = inr req
               /\ w' = with_call w c req))
  /\
  (forall s s',
      Legacy.SendRequest r s = (Returned (resp, err), s') ->
      (err <> None -> resp = Response.zero)
      /\ (err = None ->
          Response.StatusCode resp = http.StatusOK
          /\ exists c req,
               Legacy.Client (Legacy.self s) = Some c
               /\ Legacy.SendRequest_request (Legacy.self s) r = inr req
               /\ Legacy.world s' = with_call (Legacy.world s) c req
               /\ RoundTrip (sent (Legacy.world s)) c req
                  = inr (http.mkResponse http.StatusOK
                           (http.mkBody (Response.Body resp) None)))
      /\ Legacy.self s' = Legacy.self s
      /\ Legacy.client s' = Legacy.client s
      /\ (Legacy.world s' = Legacy.world s
          \/ exists c req,
               Legacy.Client (Legacy.self s) = Some c
               /\ Legacy.SendRequest_request (Legacy.self s) r = inr req
               /\ Legacy.world s' = with_call (Legacy.world s) c req)).
Proof.
  split.
  - intros f w w' Hcall.
    destruct (Current_SendRequest_cases f r w)
      as [[o [Ho [Hp | [e He]]]] | [c [req [Hc [Hreq [[e He] | [body [Hresp Hb]]]]]]]];
      rewrite ?Ho, ?He, ?Hb in Hcall; subst; inversion Hcall; subst.
    + split; [reflexivity |]. split; [discriminate |]. now left.
    + split; [reflexivity |]. split; [discriminate |].
      right. now exists c, req.
    + split; [congruence |]. split.
      * intros _. split; [reflexivity |]. now exists c, req.
      * right. now exists c, req.
  - intros s s' Hcall.
    destruct (Legacy_SendRequest_cases r s)
      as [[o [Ho [Hp | [e He]]]] | [c [req [Hc [Hreq [[e He] | [body [Hresp Hb]]]]]]]];
      rewrite ?Ho, ?He, ?Hb in Hcall; subst; inversion Hcall; subst.
    + split; [reflexivity |]. split; [discriminate |].
      split; [reflexivity |]. split; [reflexivity |]. now left.
    + split; [reflexivity |]. split; [discriminate |].
      split; [reflexivity |]. split; [reflexivity |].
      right. now exists c, req.
    + split; [congruence |]. split.
      * intros _. split; [reflexivity |]. now exists c, req.
      * split; [reflexivity |]. split; [reflexivity |].
        right. now exists c, req.
Qed.

(** X8.  [GetInvoiceBalance] fails exactly when [SendRequest] fails: an
    error it returns is the error of [SendRequest] for the GET of
    [/invoices/<id>], and comes with the balance 0; with a nil error the
    service answered that request with 200.  Nothing else is sent. *)
Theorem GetInvoiceBalance_error (invoiceID : string) (balance : float64)
  (err : error) :
  (forall f w w',
      Current.GetInvoiceBalance f invoiceID w = (Returned (balance, err), w') ->
      (forall e, err = Some e ->
         balance = float64_zero
         /\ Current.SendRequest f
              (RequestDetails.mk "GET" ("/invoices/" ++ invoiceID) None) w
            = (Returned (Response.zero, Some e), w'))
      /\ (err = None ->
          exists body,
            Current.SendRequest f
              (RequestDetails.mk "GET" ("/invoices/" ++ invoiceID) None) w
            = (Returned (Response.mk body http.StatusOK, None), w')
            /\ balance = Invoice.OutstandingBalance
                           (fst (json_Unmarshal body (Invoice.mk float64_zero)))))
  /\
  (forall s s',
      Legacy.GetInvoiceBalance invoiceID s = (Returned (balance, err), s') ->
      (forall e, err = Some e ->
         balance = float64_zero
         /\ Legacy.SendRequest
              (RequestDetails.mk "GET" ("/invoices/" ++ invoiceID) None) s
            = (Returned (Response.zero, Some e), s'))
      /\ (err = None ->
          exists body,
            Legacy.SendRequest
              (RequestDetails.mk "GET" ("/invoices/" ++ invoiceID) None) s
            = (Returned (Response.mk body http.StatusOK, None), s')
            /\ balance = Invoice.OutstandingBalance
                           (fst (json_Unmarshal body (Invoice.mk float64_zero))))).
Proof.
  split.
  - intros f w w' Hcall. unfold Current.GetInvoiceBalance, bind in Hcall.
    destruct (Current_SendRequest_cases f
                (RequestDetails.mk "GET" ("/invoices/" ++ invoiceID) None) w)
      as [[o [Ho [Hp | [e He]]]] | [c [req [Hc [Hreq [[e He] | [body [Hresp Hb]]]]]]]];
      rewrite ?Ho, ?He, ?Hb in *; subst; unfold ret in Hcall; cbn [fst snd] in Hcall;
      inversion Hcall; subst.
    + split; [| discriminate]. intros e0 He0. inversion He0. now subst.
    + split; [| discriminate]. intros e0 He0. inversion He0. now subst.
    + split; [discriminate |]. intros _. exists body. split; reflexivity.
  - intros s s' Hcall. unfold Legacy.GetInvoiceBalance, bind in Hcall.
    destruct (Legacy_SendRequest_cases
                (RequestDetails.mk "GET" ("/invoices/" ++ invoiceID) None) s)
      as [[o [Ho [Hp | [e He]]]] | [c [req [Hc [Hreq [[e He] | [body [Hresp Hb]]]]]]]];
      rewrite ?Ho, ?He, ?Hb in *; subst; unfold ret in Hcall; cbn [fst snd] in Hcall;
      inversion Hcall; subst.
    + split; [| discriminate]. intros e0 He0. inversion He0. now subst.
    + split; [| discriminate]. intros e0 He0. inversion He0. now subst.
    + split; [discriminate |]. intros _. exists body. split; reflexivity.
Qed.

End RequestResults.

Lemma SendRequest_result_witness :
  Current.SendRequest (R := Scenario.accepting) Scenario.public_client
    Scenario.invoice_details Scenario.empty
  = (Returned (Response.mk Scenario.body_balance 200, None),
     with_call Scenario.empty Scenario.public_http Scenario.invoice_request)
  /\ Response.StatusCode (Response.mk Scenario.body_balance 200) = http.StatusOK.
Proof.
  split; [reflexivity |].
  destruct (SendRequest_result (R := Scenario.accepting) Scenario.invoice_details
              (Response.mk Scenario.body_balance 200) None) as [HCurrent _].
  destruct (HCurrent Scenario.public_client Scenario.empty
              (with_call Scenario.empty Scenario.public_http
                 Scenario.invoice_request) eq_refl) as [_ [HOK _]].
  apply (HOK eq_refl).
Defined.

Lemma GetInvoiceBalance_error_witness :
  Current.GetInvoiceBalance (R := Scenario.missing) Scenario.public_client "12"
    Scenario.empty
  = (Returned (float64_zero,
               Some "Request failed with the status code: 404, content: not found"),
     with_call Scenario.empty Scenario.public_http Scenario.invoice_request)
  /\ Current.SendRequest (R := Scenario.missing) Scenario.public_client
       Scenario.invoice_details Scenario.empty
     = (Returned (Response.zero,
                  Some "Request failed with the status code: 404, content: not found"),
        with_call Scenario.empty Scenario.public_http Scenario.invoice_request).
Proof.
  split; [reflexivity |].
  destruct (GetInvoiceBalance_error (R := Scenario.missing) "12" float64_zero
              (Some "Request failed with the status code: 404, content: not found"))
    as [HCurrent _].
  destruct (HCurrent Scenario.public_client Scenario.empty
              (with_call Scenario.empty Scenario.public_http
                 Scenario.invoice_request) eq_refl) as [HErr _].
  apply (HErr _ eq_refl).
Defined.

(** ** The balance in a larger invoice *)

Section InvoiceMembers.

Context {R : GoRuntime}.

Lemma decode_members_app (ms1 ms2 : list (string * json.value))
  (st : Invoice.t * option json.Error) :
  decode_members (ms1 ++ ms2) st = decode_members ms2 (decode_members ms1 st).
Proof.
  revert st. induction ms1 as [| [k v] ms1 IH]; intros st; [reflexivity |].
  cbn [app decode_members]. apply IH.
Qed.

(** A member value that stores [x] leaves [x] in the field. *)
Lemma store_float64_stored (v : json.value) (x : float64)
  (st : Invoice.t * option json.Error) :
  stored_value v = Some x -> fst (store_float64 v st) = Invoice.mk x.
Proof.
  destruct v as [| b | lit | str | elems | members]; try discriminate.
  unfold stored_value, store_float64.
  destruct (ParseFloat lit) as [n |].
  - intros H. inversion H. reflexivity.
  - intros H. rewrite H. reflexivity.
Qed.

(** The balance decoded from an object in which [(k, v)] is the last
    member that stores one. *)
Lemma Unmarshal_last_balance (body : string)
  (ms1 ms2 : list (string * json.value)) (k : string) (v : json.value)
  (x : float64) :
  scan body = Some (json.Object (ms1 ++ (k, v) :: ms2)) ->
  names_field k = true ->
  stored_value v = Some x ->
  existsb stores_balance ms2 = false ->
  fst (json_Unmarshal body (Invoice.mk float64_zero)) = Invoice.mk x.
Proof.
  intros Hscan Hk Hv Hrest. unfold json_Unmarshal. rewrite Hscan.
  rewrite decode_members_app. cbn [decode_members]. rewrite Hk.
  rewrite (decode_members_untouched ms2 _ Hrest).
  now apply store_float64_stored.
Qed.

(** X9.  [GetInvoiceBalance] reads the balance out of an invoice with any
    other members: when the body is a JSON object, the balance returned is
    the value of the last member named [outstandingBalance] for which the
    decoder stores one, that is a number that parses or, with a decoder
    that stores it, the infinity of a number out of range; members with
    other names, before or after it, values of the field that store
    nothing, and earlier values of the field do not matter. *)
Theorem GetInvoiceBalance_last_balance (invoiceID : string)
  (ms1 ms2 : list (string * json.value)) (k : string) (v : json.value)
  (x : float64) :
  names_field k = true ->
  stored_value v = Some x ->
  existsb stores_balance ms2 = false ->
  (forall f w w' resp,
      Current.SendRequest f
        (RequestDetails.mk "GET" ("/invoices/" ++ invoiceID) None) w
        = (Returned (resp, None), w') ->
      scan (Response.Body resp) = Some (json.Object (ms1 ++ (k, v) :: ms2)) ->
      Current.GetInvoiceBalance f invoiceID w = (Returned (x, None), w'))
  /\
  (forall s s' resp,
      Legacy.SendRequest
        (RequestDetails.mk "GET" ("/invoices/" ++ invoiceID) None) s
        = (Returned (resp, None), s') ->
      scan (Response.Body resp) = Some (json.Object (ms1 ++ (k, v) :: ms2)) ->
      Legacy.GetInvoiceBalance invoiceID s = (Returned (x, None), s')).
Proof.
  intros Hk Hv Hrest. split.
  - intros f w w' resp Hsend Hscan.
    rewrite (Current_GetInvoiceBalance_decoded f invoiceID w w' resp Hsend).
    now rewrite (Unmarshal_last_balance _ ms1 ms2 k v x Hscan Hk Hv Hrest).
  - intros s s' resp Hsend Hscan.
    rewrite (Legacy_GetInvoiceBalance_decoded invoiceID s s' resp Hsend).
    now rewrite (Unmarshal_last_balance _ ms1 ms2 k v x Hscan Hk Hv Hrest).
Qed.

End InvoiceMembers.

Lemma GetInvoiceBalance_last_balance_witness :
  (names_field (R := Cases.detailed) Scenario.key = true
   /\ stored_value (R := Cases.detailed) (json.Number "42.5") = Some Scenario.f42_5
   /\ Current.GetInvoiceBalance (R := Cases.detailed) Scenario.public_client "12"
        Scenario.empty
      = (Returned (Scenario.f42_5, None),
         with_call Scenario.empty Scenario.public_http Scenario.invoice_request))
  /\
  (stored_value (R := Cases.overflowing) (json.Number "1e999") = Some Cases.infinity
   /\ Current.GetInvoiceBalance (R := Cases.overflowing) Scenario.public_client "12"
        Scenario.empty
      = (Returned (Cases.infinity, None),
         with_call Scenario.empty Scenario.public_http Scenario.invoice_request)).
Proof.
  split.
  - split; [reflexivity |]. split; [reflexivity |].
    destruct (GetInvoiceBalance_last_balance (R := Cases.detailed) "12"
                [("id", json.Number "12")] [("status", json.Str "Due")]
                Scenario.key (json.Number "42.5") Scenario.f42_5
                eq_refl eq_refl eq_refl)
      as [HCurrent _].
    apply (HCurrent Scenario.public_client Scenario.empty
             (with_call Scenario.empty Scenario.public_http Scenario.invoice_request)
             (Response.mk Cases.body_invoice 200));
      reflexivity.
  - split; [reflexivity |].
    destruct (GetInvoiceBalance_last_balance (R := Cases.overflowing) "12"
                [(Scenario.key, json.Number "42.5")] []
                Scenario.key (json.Number "1e999") Cases.infinity
                eq_refl eq_refl eq_refl)
      as [HCurrent _].
    apply (HCurrent Scenario.public_client Scenario.empty
             (with_call Scenario.empty Scenario.public_http Scenario.invoice_request)
             (Response.mk Cases.body_overflow 200));
      reflexivity.
Defined.

(** ** The invoice identifier as a number *)

(** The digits of a decimal numeral, read back. *)
Lemma of_uint_acc_ge (d : Decimal.uint) (acc : positive) :
  (acc <= Pos.of_uint_acc d acc)%positive.
Proof.
  revert acc. induction d; intros acc; cbn [Pos.of_uint_acc];
    try (eapply Pos.le_trans; [| apply IHd]); lia.
Qed.

Lemma Atoi_digits_acc (d : Decimal.uint) (acc : positive) :
  strconv.Atoi_digits (Zpos acc) (NilEmpty.string_of_uint d)
  = Some (Zpos (Pos.of_uint_acc d acc)).
Proof.
  revert acc. induction d; intros acc; cbn [NilEmpty.string_of_uint Pos.of_uint_acc];
    [reflexivity | ..];
    cbn [strconv.Atoi_digits]; 
    match goal with
    | |- context [strconv.is_digit ?c] =>
        change (strconv.is_digit c) with true;
        let v := eval vm_compute in (strconv.byte_of c - 48) in
        change (strconv.byte_of c - 48) with v
    end; cbv iota; rewrite <- IHd; f_equal; lia.
Qed.

Lemma Atoi_digits_uint (d : Decimal.uint) :
  strconv.Atoi_digits 0 (NilEmpty.string_of_uint d) = Some (Z.of_N (Pos.of_uint d)).
Proof.
  induction d; cbn [NilEmpty.string_of_uint Pos.of_uint];
    [reflexivity | ..];
    cbn [strconv.Atoi_digits]; 
    match goal with
    | |- context [strconv.is_digit ?c] =>
        change (strconv.is_digit c) with true;
        let v := eval vm_compute in (strconv.byte_of c - 48) in
        change (strconv.byte_of c - 48) with v
    end; cbv iota; cbn [Z.mul Z.add]; [exact IHd | ..];
    apply Atoi_digits_acc.
Qed.

Lemma geb_false (n m : Z) : n < m -> (n >=? m) = false.
Proof. intros H. rewrite Z.geb_leb. now apply Z.leb_gt. Qed.

Lemma gtb_false (n m : Z) : n <= m -> (n >? m) = false.
Proof. intros H. rewrite Z.gtb_ltb. now apply Z.ltb_ge. Qed.

Lemma ParseUint_loop_acc (maxVal : Z) (d : Decimal.uint) (acc : positive) :
  maxVal <= 2 ^ 64 - 1 ->
  Zpos (Pos.of_uint_acc d acc) <= maxVal ->
  strconv.ParseUint_loop maxVal (Zpos acc) (NilEmpty.string_of_uint d)
  = (Zpos (Pos.of_uint_acc d acc), None).
Proof.
  intros Hmax. revert acc.
  induction d; intros acc Hle; cbn [NilEmpty.string_of_uint Pos.of_uint_acc] in *;
    [reflexivity | ..];
    cbn [strconv.ParseUint_loop];
    match goal with
    | |- context [strconv.is_digit ?c] =>
        change (strconv.is_digit c) with true;
        let v := eval vm_compute in (strconv.byte_of c - 48) in
        change (strconv.byte_of c - 48) with v
    end; cbv iota beta zeta; cbn [negb];
    match type of Hle with
    | Z.pos (Pos.of_uint_acc _ ?a) <= _ =>
        pose proof (of_uint_acc_ge d a) as Hge
    end;
    change ((2 ^ 64 - 1) / 10 + 1) with 1844674407370955162;
    change (2 ^ 64 - 1) with 18446744073709551615 in Hmax;
    match goal with
    | |- context [Z.pos acc >=? ?k] =>
        rewrite (geb_false (Z.pos acc) k) by lia
    end;
    match goal with
    | |- context [?x >? maxVal] =>
        rewrite (gtb_false x maxVal) by lia
    end;
    rewrite <- IHd by lia; f_equal; lia.
Qed.

Lemma ParseUint_loop_uint (maxVal : Z) (d : Decimal.uint) :
  maxVal <= 2 ^ 64 - 1 ->
  Z.of_N (Pos.of_uint d) <= maxVal ->
  strconv.ParseUint_loop maxVal 0 (NilEmpty.string_of_uint d)
  = (Z.of_N (Pos.of_uint d), None).
Proof.
  intros Hmax.
  induction d; intros Hle; cbn [NilEmpty.string_of_uint Pos.of_uint] in *;
    [reflexivity | ..];
    cbn [strconv.ParseUint_loop];
    match goal with
    | |- context [strconv.is_digit ?c] =>
        change (strconv.is_digit c) with true;
        let v := eval vm_compute in (strconv.byte_of c - 48) in
        change (strconv.byte_of c - 48) with v
    end; cbv iota beta zeta; cbn [negb Z.mul Z.add];
    change (0 >=? (2 ^ 64 - 1) / 10 + 1) with false; cbv iota;
    [ rewrite (gtb_false 0 maxVal) by (pose proof (N2Z.is_nonneg (Pos.of_uint d)); lia);
      now apply IHd
    | .. ];
    cbn [Z.of_N] in Hle;
    match type of Hle with
    | Z.pos (Pos.of_uint_acc _ ?a) <= _ =>
        pose proof (of_uint_acc_ge d a) as Hge;
        rewrite (gtb_false (Z.pos a) maxVal) by lia
    end;
    now apply ParseUint_loop_acc.
Qed.

(** A decimal numeral is not empty and starts with a digit. *)
Lemma string_of_uint_head (d : Decimal.uint) :
  d <> Decimal.Nil ->
  exists c rest,
    NilEmpty.string_of_uint d = String c rest
    /\ strconv.is_sign c = false /\ strconv.is_minus c = false.
Proof.
  destruct d; [congruence | ..]; intros _; eexists; eexists;
    (split; [reflexivity | split; reflexivity]).
Qed.

Lemma NilZero_nonnil (d : Decimal.uint) :
  d <> Decimal.Nil -> NilZero.string_of_uint d = NilEmpty.string_of_uint d.
Proof. destruct d; [congruence | ..]; reflexivity. Qed.

Lemma Atoi_Sprintf_d (n : Z) :
  - 2 ^ 63 <= n < 2 ^ 63 ->
  strconv.Atoi (Sprintf_d n) = (n, None).
Proof.
  intros Hrange. unfold Sprintf_d.
  destruct n as [| p | p]; [reflexivity | |];
    cbn [Z.to_int NilZero.string_of_int];
    pose proof (DecimalPos.Unsigned.to_uint_nonnil p) as Hnil;
    pose proof (DecimalPos.Unsigned.of_to p) as Hval;
    rewrite (NilZero_nonnil _ Hnil);
    destruct (string_of_uint_head (Pos.to_uint p) Hnil)
      as [c [rest [Hs [Hsign Hminus]]]];
    pose proof (Atoi_digits_uint (Pos.to_uint p)) as Hfast;
    pose proof (ParseUint_loop_uint (2 ^ 64 - 1) (Pos.to_uint p) (Z.le_refl _))
      as Hslow;
    rewrite Hval in Hfast, Hslow; cbn [Z.of_N] in Hfast, Hslow;
    rewrite Hs in *;
    specialize (Hslow ltac:(lia));
    unfold strconv.Atoi;
    match goal with |- context [if ?b then _ else _] => destruct b end.
  - now rewrite Hsign, Hfast, Hminus.
  - unfold strconv.ParseInt, strconv.ParseUint, strconv.IntSize.
    rewrite Hsign, Hminus, Hslow. cbn [negb andb].
    rewrite (geb_false (Z.pos p) (2 ^ (64 - 1))) by (cbn; lia).
    reflexivity.
  - change (strconv.is_sign "-") with true. change (strconv.is_minus "-") with true.
    cbv iota. now rewrite Hfast.
  - unfold strconv.ParseInt, strconv.ParseUint, strconv.IntSize.
    change (strconv.is_sign "-") with true. change (strconv.is_minus "-") with true.
    cbv iota. rewrite Hslow. cbn [negb andb].
    rewrite (gtb_false (Z.pos p) (2 ^ (64 - 1))) by (cbn; lia).
    reflexivity.
Qed.

Lemma is_digit_value (c : ascii) :
  strconv.is_digit c = true -> 0 <= strconv.byte_of c - 48 <= 9.
Proof. unfold strconv.is_digit. intros H. apply andb_true_iff in H. lia. Qed.

Lemma Atoi_digits_bound (s : string) (acc n : Z) :
  0 <= acc ->
  strconv.Atoi_digits acc s = Some n ->
  0 <= n < (acc + 1) * 10 ^ Z.of_nat (String.length s).
Proof.
  revert acc. induction s as [| c s IH]; intros acc Hacc; cbn [strconv.Atoi_digits].
  - intros H. inversion H. subst. cbn. lia.
  - destruct (strconv.is_digit c) eqn:Hc; [| discriminate].
    apply is_digit_value in Hc. intros H.
    apply IH in H; [| lia].
    cbn [String.length]. rewrite Nat2Z.inj_succ, Z.pow_succ_r by lia.
    assert (0 < 10 ^ Z.of_nat (String.length s)) by (apply Z.pow_pos_nonneg; lia).
    nia.
Qed.

Lemma ParseUint_loop_range (s : string) (maxVal acc : Z) :
  0 <= acc <= maxVal ->
  0 <= fst (strconv.ParseUint_loop maxVal acc s) <= maxVal
  /\ (snd (strconv.ParseUint_loop maxVal acc s) = Some strconv.ErrRange ->
      fst (strconv.ParseUint_loop maxVal acc s) = maxVal).
Proof.
  revert acc. induction s as [| c s IH]; intros acc Hacc; cbn [strconv.ParseUint_loop].
  - cbn. split; [lia | discriminate].
  - destruct (strconv.is_digit c) eqn:Hc; cbn [negb].
    + apply is_digit_value in Hc.
      destruct (acc >=? _); [cbn; split; [lia | reflexivity] |].
      destruct (acc * 10 + _ >? maxVal) eqn:Hover;
        [cbn; split; [lia | reflexivity] |].
      apply IH. rewrite Z.gtb_ltb in Hover. apply Z.ltb_ge in Hover. lia.
    + cbn. split; [lia | discriminate].
Qed.

Lemma Atoi_bounds (s : string) :
  - 2 ^ 63 <= fst (strconv.Atoi s) <= 2 ^ 63 - 1
  /\ (snd (strconv.Atoi s) = Some strconv.ErrRange ->
      fst (strconv.Atoi s) = 2 ^ 63 - 1 \/ fst (strconv.Atoi s) = - 2 ^ 63).
Proof.
  unfold strconv.Atoi.
  destruct ((0 <? Z.of_nat (String.length s)) && (Z.of_nat (String.length s) <? 19))
    eqn:Hlen.
  - apply andb_true_iff in Hlen. destruct Hlen as [_ Hlen]. apply Z.ltb_lt in Hlen.
    destruct s as [| c rest]; [cbn; split; [lia | discriminate] |].
    assert (Hdigits : forall ds n,
              (String.length ds <= String.length (String c rest))%nat ->
              strconv.Atoi_digits 0 ds = Some n -> 0 <= n < 10 ^ 18).
    { intros ds n Hds Hn. apply Atoi_digits_bound in Hn; [| lia].
      assert (10 ^ Z.of_nat (String.length ds) <= 10 ^ 18)
        by (apply Z.pow_le_mono_r; lia).
      lia. }
    destruct (if strconv.is_sign c then rest else String c rest) as [| d ds] eqn:Hd;
      [cbn; split; [lia | discriminate] |].
    destruct (strconv.Atoi_digits 0 (String d ds)) as [n |] eqn:Hn;
      [| cbn; split; [lia | discriminate]].
    apply Hdigits in Hn.
    + cbn [fst snd]. split; [| discriminate].
      destruct (strconv.is_minus c); lia.
    + rewrite <- Hd. destruct (strconv.is_sign c); cbn; lia.
  - unfold strconv.ParseInt, strconv.IntSize.
    destruct s as [| c rest]; [cbn; split; [lia | discriminate] |].
    set (digits := if strconv.is_sign c then rest else String c rest).
    assert (Hun : 0 <= fst (strconv.ParseUint digits 64) <= 2 ^ 64 - 1
                  /\ (snd (strconv.ParseUint digits 64) = Some strconv.ErrRange ->
                      fst (strconv.ParseUint digits 64) = 2 ^ 64 - 1)).
    { unfold strconv.ParseUint. destruct digits; [cbn; split; [lia | discriminate] |].
      apply ParseUint_loop_range. lia. }
    destruct (strconv.ParseUint digits 64) as [un e]. cbn [fst snd] in Hun.
    destruct Hun as [Hun Hrange].
    change (2 ^ (64 - 1)) with 9223372036854775808.
    change (2 ^ 63) with 9223372036854775808.
    change (2 ^ 64 - 1) with 18446744073709551615 in *.
    destruct e as [[|] |]; [cbn; split; [lia | discriminate] | |];
      destruct (strconv.is_minus c); cbn [negb andb];
      try (destruct (un >=? _) eqn:Hge; [cbn; split; [lia | intros _; left; reflexivity] |];
           rewrite Z.geb_leb in Hge; apply Z.leb_gt in Hge);
      try (destruct (un >? _) eqn:Hgt; [cbn; split; [lia | intros _; right; reflexivity] |];
           rewrite Z.gtb_ltb in Hgt; apply Z.ltb_ge in Hgt);
      cbn [fst snd]; (split; [lia |]); intros He;
      try discriminate; specialize (Hrange eq_refl); lia.
Qed.

Section InvoiceIdNumbers.

Context {R : GoRuntime}.

(** X10.  An invoice identifier written in decimal is posted as it is: for
    every [n] that fits an [int], [WriteOff] called with the decimal
    numeral of [n] marshals [WriteOff{InvoiceId: n}], so for a finite
    amount the payload carries the identifier it was given, in both
    revisions. *)
Theorem WriteOff_decimal_invoiceID (n : Z) (balance : float64) :
  - 2 ^ 63 <= n < 2 ^ 63 ->
  strconv.Atoi (Sprintf_d n) = (n, None)
  /\ (forall f req,
        Current.WriteOff_request f (Sprintf_d n) balance = inr req ->
        http.Body req = fst (json_Marshal (WriteOff.mk n balance))
        /\ (IsInf balance || IsNaN balance = false ->
            http.Body req
            = "{" ++ dquote ++ "invoiceId" ++ dquote ++ ":" ++ Sprintf_d n
                  ++ "," ++ dquote ++ "amount" ++ dquote ++ ":"
                  ++ FormatFloat balance ++ "}"))
  /\ (forall f req,
        Legacy.WriteOff_request f (Sprintf_d n) balance = inr req ->
        http.Body req = fst (json_Marshal (WriteOff.mk n balance))
        /\ (IsInf balance || IsNaN balance = false ->
            http.Body req
            = "{" ++ dquote ++ "invoiceId" ++ dquote ++ ":" ++ Sprintf_d n
                  ++ "," ++ dquote ++ "amount" ++ dquote ++ ":"
                  ++ FormatFloat balance ++ "}")).
Proof.
  intros Hrange. pose proof (Atoi_Sprintf_d n Hrange) as Hatoi.
  assert (Hbody : IsInf balance || IsNaN balance = false ->
            fst (json_Marshal (WriteOff.mk n balance))
            = "{" ++ dquote ++ "invoiceId" ++ dquote ++ ":" ++ Sprintf_d n
                  ++ "," ++ dquote ++ "amount" ++ dquote ++ ":"
                  ++ FormatFloat balance ++ "}").
  { intros Hfinite. unfold json_Marshal.
    cbn [WriteOff.Amount WriteOff.InvoiceId]. now rewrite Hfinite. }
  split; [exact Hatoi |]. split.
  - intros f req Hreq. apply Current_WriteOff_request_inr in Hreq.
    rewrite Hatoi in Hreq. subst req. cbn [http.Body fst].
    split; [reflexivity | exact Hbody].
  - intros f req Hreq. apply Legacy_WriteOff_request_inr in Hreq.
    rewrite Hatoi in Hreq. subst req. cbn [http.Body fst].
    split; [reflexivity | exact Hbody].
Qed.

(** X11.  The identifier [WriteOff] posts always fits an [int]: whatever
    the invoice identifier string, the number marshalled lies between
    [-2^63] and [2^63 - 1]; and when [Atoi] reports an error, which
    [WriteOff] drops, that number is 0 or one of the two bounds. *)
Theorem WriteOff_invoiceId_fits_int (invoiceID : string) (balance : float64) :
  (- 2 ^ 63 <= fst (strconv.Atoi invoiceID) <= 2 ^ 63 - 1)
  /\ (snd (strconv.Atoi invoiceID) <> None ->
      fst (strconv.Atoi invoiceID) = 0
      \/ fst (strconv.Atoi invoiceID) = 2 ^ 63 - 1
      \/ fst (strconv.Atoi invoiceID) = - 2 ^ 63)
  /\ (forall f req,
        Current.WriteOff_request f invoiceID balance = inr req ->
        http.Body req
        = fst (json_Marshal (WriteOff.mk (fst (strconv.Atoi invoiceID)) balance)))
  /\ (forall f req,
        Legacy.WriteOff_request f invoiceID balance = inr req ->
        http.Body req
        = fst (json_Marshal (WriteOff.mk (fst (strconv.Atoi invoiceID)) balance))).
Proof.
  destruct (Atoi_bounds invoiceID) as [Hbounds Hrange].
  split; [exact Hbounds |]. split; [| split].
  - intros Herr.
    destruct (snd (strconv.Atoi invoiceID)) as [[|] |] eqn:He; [| | congruence].
    + left. now apply Atoi_syntax_error_zero.
    + right. now apply Hrange.
  - intros f req Hreq. apply Current_WriteOff_request_inr in Hreq. now subst req.
  - intros f req Hreq. apply Legacy_WriteOff_request_inr in Hreq. now subst req.
Qed.

(** X12.  The hosts the constructors of the current revision select, and
    the URLs the operations then use: the mode ["production"], and no other
    string, selects the production host; [NewClient] appends [/v1] to the
    host that [NewPrivateClient] uses; [SendRequest] goes to
    [<host>/v1<endpoint>] with the token as Basic authorization, [login] to
    [<host>/api/Login/] and [WriteOff] to [<host>/api/invoices/writeoff]. *)
Theorem constructed_client_urls (mode : string) (credentials : Credentials.t)
  (w : World) :
  exists host f w',
    Current.NewPrivateClient mode credentials w = (Returned f, w')
    /\ (mode = "production" -> host = "https://secure.fusebill.com")
    /\ (mode <> "production" -> host = "https://stg-secure.fusebill.com")
    /\ Current.BaseUrl f = host
    /\ Current.BaseUrl (Current.NewClient mode credentials) = host ++ "/v1"
    /\ (forall r req,
          Current.SendRequest_request (Current.NewClient mode credentials) r
            = inr req ->
          http.URL req = host ++ "/v1" ++ RequestDetails.Endpoint r
          /\ http.Headers req
             = [("Content-Type", "application/json");
                ("Authorization", "Basic " ++ Credentials.Token credentials)])
    /\ (forall lreq,
          PostForm_request (Current.login_url f) (Current.login_data f) = inr lreq ->
          http.URL lreq = host ++ "/api/Login/")
    /\ (forall invoiceID balance wreq,
          Current.WriteOff_request f invoiceID balance = inr wreq ->
          http.URL wreq = host ++ "/api/invoices/writeoff").
Proof.
  exists (if String.eqb mode "production"
          then "https://secure.fusebill.com"
          else "https://stg-secure.fusebill.com").
  eexists. eexists. split; [reflexivity |].
  split; [intros Hmode; subst mode; reflexivity |].
  split; [intros Hmode; apply String.eqb_neq in Hmode; now rewrite Hmode |].
  split; [reflexivity |].
  split; [cbn; now destruct (String.eqb mode "production") |].
  split; [| split].
  - intros r req Hreq. unfold Current.SendRequest_request, http_NewRequest in Hreq.
    destruct (NewRequest_error _ _); [discriminate |].
    inversion Hreq. cbn. split; [| reflexivity].
    destruct (String.eqb mode "production"); cbn; reflexivity.
  - intros lreq Hlreq. apply PostForm_request_inr in Hlreq. now subst lreq.
  - intros invoiceID balance wreq Hwreq.
    apply Current_WriteOff_request_inr in Hwreq. now subst wreq.
Qed.

End InvoiceIdNumbers.

Lemma WriteOff_decimal_invoiceID_witness :
  - 2 ^ 63 <= 4711 < 2 ^ 63
  /\ Sprintf_d 4711 = "4711"
  /\ http.Body (Scenario.writeoff_request "4711")
     = fst (json_Marshal (R := Scenario.accepting) (WriteOff.mk 4711 Scenario.f1)).
Proof.
  split; [cbn; lia |]. split; [reflexivity |].
  destruct (WriteOff_decimal_invoiceID (R := Scenario.accepting) 4711 Scenario.f1
              ltac:(cbn; lia)) as [_ [HCurrent _]].
  destruct (HCurrent Scenario.private_client (Scenario.writeoff_request "4711")
              eq_refl) as [HBody _].
  exact HBody.
Defined.

Lemma WriteOff_invoiceId_fits_int_witness :
  snd (strconv.Atoi "-99999999999999999999") <> None
  /\ (fst (strconv.Atoi "-99999999999999999999") = 0
      \/ fst (strconv.Atoi "-99999999999999999999") = 2 ^ 63 - 1
      \/ fst (strconv.Atoi "-99999999999999999999") = - 2 ^ 63).
Proof.
  split; [discriminate |].
  destruct (WriteOff_invoiceId_fits_int (R := Scenario.accepting)
              "-99999999999999999999" Scenario.f1) as [_ [HErr _]].
  apply HErr. discriminate.
Defined.

Lemma constructed_client_urls_witness :
  exists host f w',
    Current.NewPrivateClient "Production" Scenario.credentials Scenario.empty
      = (Returned f, w')
    /\ ("Production" <> "production" -> host = "https://stg-secure.fusebill.com")
    /\ Current.BaseUrl f = host.
Proof.
  destruct (constructed_client_urls (R := Scenario.accepting) "Production"
              Scenario.credentials Scenario.empty)
    as [host [f [w' [Hnew [_ [Hstaging [Hbase _]]]]]]].
  exists host, f, w'. split; [exact Hnew |]. split; [exact Hstaging | exact Hbase].
Defined.

(** ** What a nil result means *)

Section NilResults.

Context {R : GoRuntime}.

(** X13.  The converse of the success case: [WriteOff] of the current
    revision returns nil only when the amount passed the test, the login
    request was answered with 200 and the write-off request that followed
    was answered with 200; these two requests are then all it sent. *)
Theorem Current_WriteOff_nil (f : Current.Fusebill) (invoiceID : string)
  (balance : float64) (w w' : World) :
  Current.WriteOff f invoiceID balance w = (Returned None, w') ->
  float64_le balance float64_zero = false
  /\ exists c lreq wreq lresp wresp,
       Current.Client f = Some c
       /\ Current.cookieJar f <> None
       /\ PostForm_request (Current.login_url f) (Current.login_data f) = inr lreq
       /\ RoundTrip (sent w) c lreq = inr lresp
       /\ http.StatusCode lresp = http.StatusOK
       /\ Current.WriteOff_request f invoiceID balance = inr wreq
       /\ RoundTrip (sent (with_call w c lreq)) c wreq = inr wresp
       /\ http.StatusCode wresp = http.StatusOK
       /\ w' = with_call (with_call w c lreq) c wreq.
Proof.
  intros Hcall.
  destruct (bool_dec (float64_le balance float64_zero) true) as [Hle | Hle].
  { unfold Current.WriteOff in Hcall. rewrite Hle in Hcall. discriminate. }
  apply not_true_is_false in Hle. split; [exact Hle |].
  assert (Hjar : Current.cookieJar f <> None).
  { intros Hnone. unfold Current.WriteOff in Hcall. rewrite Hle in Hcall.
    unfold bind at 1 in Hcall.
    rewrite (Current_login_without_jar f w Hnone) in Hcall. discriminate. }
  destruct (Current_login_cases f w)
    as [[Hworld Herr] | [c [lreq [Hc [Hlreq [Hworld Hnil]]]]]].
  - exfalso. unfold Current.WriteOff in Hcall. rewrite Hle in Hcall.
    unfold bind at 1 in Hcall.
    destruct (Current.login f w) as [[[e |] |] w1]; cbn [fst] in Herr;
      try discriminate. now apply Herr.
  - destruct (Current.login f w) as [o w1] eqn:Hlogin. cbn [fst snd] in *.
    subst w1.
    destruct o as [[e |] |];
      try (unfold Current.WriteOff in Hcall; rewrite Hle in Hcall;
           unfold bind at 1 in Hcall; rewrite Hlogin in Hcall; discriminate).
    destruct (Hnil eq_refl) as [lresp [Hlresp HOK]].
    destruct (Current.WriteOff_request f invoiceID balance) as [e | wreq] eqn:Hwreq.
    { unfold Current.WriteOff in Hcall. rewrite Hle in Hcall.
      unfold bind at 1 in Hcall. rewrite Hlogin, Hwreq in Hcall. discriminate. }
    rewrite (Current_WriteOff_after_login f invoiceID balance w
               (with_call w c lreq) c wreq Hle Hlogin Hc Hwreq) in Hcall.
    destruct (RoundTrip (sent (with_call w c lreq)) c wreq) as [e | wresp] eqn:Hwresp;
      [discriminate |].
    destruct (negb (http.StatusCode wresp =? http.StatusOK)) eqn:Hstatus;
      [discriminate |].
    inversion Hcall. subst w'.
    exists c, lreq, wreq, lresp, wresp.
    repeat split; try assumption.
    apply negb_false_iff in Hstatus. now apply Z.eqb_eq.
Qed.

(** X14.  In the earlier revision the package client is shared by all
    clients: when a client [fA] has logged in and then another client [fB]
    logs in, the package client holds the jar of [fB], and the next
    [WriteOff] of [fA] is sent through it, with the session of [fB] and not
    its own. *)
Theorem Legacy_package_client_shared (fA fB : Legacy.Fusebill)
  (package_client : option http.Client) (w : World)
  (lreqA lreqB wreq : http.Request) (respA respB : http.Response)
  (invoiceID : string) (balance : float64) :
  Legacy.cookieJar fA = None ->
  Legacy.cookieJar fB = None ->
  PostForm_request (Legacy.login_url fA) (Legacy.login_data fA) = inr lreqA ->
  RoundTrip (sent w) (http.mkClient (Some (jars w)) None) lreqA = inr respA ->
  http.StatusCode respA = http.StatusOK ->
  PostForm_request (Legacy.login_url fB) (Legacy.login_data fB) = inr lreqB ->
  RoundTrip (sent w ++ [http.mkCall (http.mkClient (Some (jars w)) None) lreqA])%list
    (http.mkClient (Some (S (jars w))) None) lreqB = inr respB ->
  http.StatusCode respB = http.StatusOK ->
  float64_le balance float64_zero = false ->
  Legacy.WriteOff_request fA invoiceID balance = inr wreq ->
  let sA := Legacy_after_login (Legacy.mkState fA package_client w) lreqA in
  let sB := Legacy_after_login
              (Legacy.mkState fB (Legacy.client sA) (Legacy.world sA)) lreqB in
  Legacy.login (Legacy.mkState fA package_client w) = (Returned None, sA)
  /\ Legacy.login (Legacy.mkState fB (Legacy.client sA) (Legacy.world sA))
     = (Returned None, sB)
  /\ Legacy.cookieJar (Legacy.self sA) = Some (jars w)
  /\ Legacy.cookieJar (Legacy.self sB) = Some (S (jars w))
  /\ Legacy.client sB = Some (http.mkClient (Some (S (jars w))) None)
  /\ Legacy.world
       (snd (Legacy.WriteOff invoiceID balance
               (Legacy.mkState (Legacy.self sA) (Legacy.client sB) (Legacy.world sB))))
     = with_call (Legacy.world sB) (http.mkClient (Some (S (jars w))) None) wreq.
Proof.
  intros HjarA HjarB HlreqA HrespA HokA HlreqB HrespB HokB Hle Hwreq sA sB.
  assert (HloginA : Legacy.login (Legacy.mkState fA package_client w)
                    = (Returned None, sA)).
  { rewrite (Legacy_login_answered (Legacy.mkState fA package_client w)
               lreqA respA HjarA HlreqA HrespA).
    now rewrite (status_OK respA HokA). }
  assert (HloginB : Legacy.login
                      (Legacy.mkState fB (Legacy.client sA) (Legacy.world sA))
                    = (Returned None, sB)).
  { rewrite (Legacy_login_answered
               (Legacy.mkState fB (Legacy.client sA) (Legacy.world sA))
               lreqB respB HjarB HlreqB HrespB).
    now rewrite (status_OK respB HokB). }
  split; [exact HloginA |]. split; [exact HloginB |].
  split; [reflexivity |]. split; [reflexivity |]. split; [reflexivity |].
  assert (Hagain : Legacy.login
                     (Legacy.mkState (Legacy.self sA) (Legacy.client sB)
                        (Legacy.world sB))
                   = (Returned None,
                      Legacy.mkState (Legacy.self sA) (Legacy.client sB)
                        (Legacy.world sB))).
  { now apply Legacy_login_with_jar with (j := jars w). }
  rewrite (Legacy_WriteOff_after_login invoiceID balance _ _
             (http.mkClient (Some (S (jars w))) None) wreq Hle Hagain
             eq_refl Hwreq).
  reflexivity.
Qed.

End NilResults.

Lemma Current_WriteOff_nil_witness :
  Current.WriteOff (R := Scenario.accepting) Scenario.private_client "12"
    Scenario.f1 Scenario.after_private_client
  = (Returned None,
     with_call Cases.after_login Scenario.private_http
       (Scenario.writeoff_request "12"))
  /\ float64_le Scenario.f1 float64_zero = false.
Proof.
  split; [reflexivity |].
  apply (Current_WriteOff_nil (R := Scenario.accepting) Scenario.private_client
           "12" Scenario.f1 Scenario.after_private_client
           (with_call Cases.after_login Scenario.private_http
              (Scenario.writeoff_request "12"))).
  reflexivity.
Defined.

Lemma Legacy_package_client_shared_witness :
  Legacy.world
    (snd (Legacy.WriteOff (R := Scenario.accepting) "12" Scenario.f1
            (Legacy.mkState
               (Legacy.self
                  (Legacy_after_login Scenario.legacy_start Scenario.login_request))
               (Some (http.mkClient (Some 1%nat) None))
               (with_call
                  (mkWorld
                     [http.mkCall (http.mkClient (Some 0%nat) None)
                        Scenario.login_request] 2)
                  (http.mkClient (Some 1%nat) None) Scenario.login_request))))
  = with_call
      (with_call
         (mkWorld
            [http.mkCall (http.mkClient (Some 0%nat) None) Scenario.login_request] 2)
         (http.mkClient (Some 1%nat) None) Scenario.login_request)
      (http.mkClient (Some 1%nat) None) (Scenario.writeoff_request "12").
Proof.
  apply (Legacy_package_client_shared (R := Scenario.accepting)
           Scenario.legacy_client Scenario.legacy_client None Scenario.empty
           Scenario.login_request Scenario.login_request
           (Scenario.writeoff_request "12")
           (http.mkResponse 200 (http.mkBody "" None))
           (http.mkResponse 200 (http.mkBody "" None))
           "12" Scenario.f1);
    reflexivity.
Defined.
